(** * bastion_session_creator: find or create a bastion session

    A shallow embedding of [bastion_session_creator.py].  The script is a
    sequence of calls into its surroundings (keyboard, file system, the
    provider's bastion client, the clipboard); every such call is recorded as
    an [Event], exceptions are an explicit outcome, and the answers of the
    surroundings are read from a [World]. *)

From stdpp Require Import base strings list gmap pretty.
From Stdlib Require Import Ascii ZArith Lia.

Local Open Scope string_scope.
Local Open Scope Z_scope.
Local Open Scope list_scope.

(** ** Strings: the builtins the script applies to [str] values *)

Module Str.

(** [n] copies of [s], the script's ["=" * 60]. *)
Fixpoint repeat (s : string) (n : nat) : string :=
  match n with
  | O => EmptyString
  | S k => s +:+ repeat s k
  end.

(** [sep.join(pieces)]. *)
Fixpoint join (sep : string) (pieces : list string) : string :=
  match pieces with
  | [] => EmptyString
  | [p] => p
  | p :: rest => p +:+ sep +:+ join sep rest
  end.

(** [old in s]: some suffix of [s] starts with [old]. *)
Fixpoint occursb (old s : string) : bool :=
  String.prefix old s ||
  match s with
  | EmptyString => false
  | String _ s' => occursb old s'
  end.

(** The scan of [str.replace] for a non-empty [old]: left to right, an
    occurrence is replaced and the scan resumes behind it, so occurrences
    never overlap.  [skip] counts the characters of a replaced occurrence
    that are still to be passed over. *)
Fixpoint replace_scan (old new : string) (skip : nat) (s : string) : string :=
  match s with
  | EmptyString => EmptyString
  | String c s' =>
      match skip with
      | S k => replace_scan old new k s'
      | O =>
          if String.prefix old s
          then new +:+ replace_scan old new (String.length old - 1) s'
          else String c (replace_scan old new 0 s')
      end
  end.

(** [str.replace] with an empty [old] puts [new] in front of every character
    and at the end. *)
Fixpoint replace_empty (new s : string) : string :=
  match s with
  | EmptyString => new
  | String c s' => new +:+ String c (replace_empty new s')
  end.

(** [s.replace(old, new)]. *)
Definition replace (old new s : string) : string :=
  match old with
  | EmptyString => replace_empty new s
  | String _ _ => replace_scan old new 0 s
  end.

(** The characters [str.strip()] and [int()] treat as blank, within ASCII. *)
Definition is_space (c : ascii) : bool :=
  let n := nat_of_ascii c in
  (Nat.eqb n 32 || (Nat.leb 9 n && Nat.leb n 13) || (Nat.leb 28 n && Nat.leb n 31))%bool.

Fixpoint lstrip (s : string) : string :=
  match s with
  | EmptyString => EmptyString
  | String c s' => if is_space c then lstrip s' else s
  end.

Fixpoint rstrip (s : string) : string :=
  match s with
  | EmptyString => EmptyString
  | String c s' =>
      match rstrip s' with
      | EmptyString => if is_space c then EmptyString else String c EmptyString
      | r => String c r
      end
  end.

(** [s.strip()]. *)
Definition strip (s : string) : string := rstrip (lstrip s).

(** A word is unbordered when none of its proper non-empty suffixes is also
    a prefix of it: two occurrences of such a word cannot overlap. *)
Fixpoint suffixes_from (s : string) : list string :=
  match s with
  | EmptyString => []
  | String _ s' => s :: suffixes_from s'
  end.

Definition unbordered (w : string) : bool :=
  match w with
  | EmptyString => false
  | String _ w' => forallb (fun t => negb (String.prefix t w)) (suffixes_from w')
  end.

End Str.

(** Characters that cannot be typed inside a literal. *)
Definition bytes (l : list nat) : string :=
  fold_right (fun n s => String (ascii_of_nat n) s) EmptyString l.

Definition NL : string := bytes [10%nat].
(** The three marker glyphs, byte for byte as the source file holds them. *)
Definition CROSS : string := bytes [226; 128; 154; 195; 185; 195; 165]%nat.
Definition TICK : string := bytes [226; 128; 154; 195; 186; 195; 150]%nat.
Definition PARTY : string := bytes [239; 163; 191; 195; 188; 195; 169; 195; 162]%nat.

(** ** Data model *)

(** An entry of a session listing. *)
Record SessionSummary := {
  sum_id : string;
  sum_lifecycle_state : string;
  sum_target_resource_id : string;
}.

(** The full detail record of a session, as [get_session] returns it;
    [ssh_metadata] is the dict that holds the command template under the key
    ["command"]. *)
Record Session := {
  session_id : string;
  lifecycle_state : string;
  target_resource_id : string;
  ssh_metadata : gmap string string;
}.

(** [CreateSessionDetails], with the managed-SSH target details and the key
    details flattened into it. *)
Record CreateSessionDetails := {
  csd_bastion_id : string;
  csd_session_type : string;
  csd_target_resource_id : string;
  csd_target_resource_operating_system_user_name : string;
  csd_public_key_content : string;
  csd_session_ttl_in_seconds : Z;
}.

(** The configuration block at the top of the script.  [TARGET_SERVERS] keeps
    the insertion order of the dict, which is the order of the menu. *)
Record Config := {
  TARGET_SERVERS : list (string * string);
  BASTION_OCID : string;
  DEFAULT_SSH_USER : string;
  SESSION_TTL_SECONDS : Z;
  PRIVATE_KEY_PATH : string;
  PUBLIC_KEY_PATH : string;
}.

(** A dict literal: a later item with a key already present overwrites the
    value and keeps the position of the first. *)
Fixpoint dict_set (d : list (string * string)) (k v : string) : list (string * string) :=
  match d with
  | [] => [(k, v)]
  | (k', v') :: rest =>
      if decide (k' = k) then (k, v) :: rest else (k', v') :: dict_set rest k v
  end.

Definition dict_literal (items : list (string * string)) : list (string * string) :=
  fold_left (fun d kv => dict_set d kv.1 kv.2) items [].

(** [d[k]]: [None] stands for [KeyError]. *)
Fixpoint dict_get (d : list (string * string)) (k : string) : option string :=
  match d with
  | [] => None
  | (k', v) :: rest => if decide (k' = k) then Some v else dict_get rest k
  end.

(** [list(d.keys())]. *)
Definition dict_keys (d : list (string * string)) : list string := d.*1.

(** The values the script ships with; [expanduser] is [os.path.expanduser]. *)
Definition shipped (expanduser : string -> string) : Config := {|
  TARGET_SERVERS := dict_literal
    [("server1", "ocid1.instance.oc1....");
     ("server2", "ocid1.instance.oc1....")];
  BASTION_OCID := "ocid1.bastion.oc1....";
  DEFAULT_SSH_USER := EmptyString;
  SESSION_TTL_SECONDS := 1800;
  PRIVATE_KEY_PATH := expanduser "~/path/to/private_key";
  PUBLIC_KEY_PATH := expanduser "~/path/to/public_key.pub";
|}.

(** ** Exceptions, events and the surroundings *)

Inductive Exn :=
| SystemExit (code : Z)
| KeyboardInterrupt
| EOFError
| ValueError
| IndexError
| KeyError (key : string)
| FileNotFoundError
| ConfigFileNotFound
| ServiceError (message : string)
| MaximumWaitTimeExceeded
| OtherError (class_name : string).

(** How a call to the bastion service can fail: a [ServiceError] answer, the
    poll helper giving up, or anything else the SDK raises (transport errors
    and the like), named by its class. *)
Inductive ApiFailure :=
| ServiceFailure (message : string)
| WaitTimedOut
| OtherFailure (class_name : string).

Inductive Response (A : Type) :=
| Data (a : A)
| Failed (f : ApiFailure).
Arguments Data {A} a.
Arguments Failed {A} f.

Definition exn_of_failure (f : ApiFailure) : Exn :=
  match f with
  | ServiceFailure message => ServiceError message
  | WaitTimedOut => MaximumWaitTimeExceeded
  | OtherFailure class_name => OtherError class_name
  end.

(** What [open(path).read()] meets: the text of the file, no such file
    ([FileNotFoundError]), or any other failure, named by its exception class
    ([PermissionError], [IsADirectoryError], [UnicodeDecodeError], ...). *)
Inductive FileResult :=
| FileText (content : string)
| FileMissing
| FileUnreadable (class_name : string).

(** What [oci.config.from_file()] and the client constructor meet. *)
Inductive ConfigResult :=
| ConfigLoaded
| ConfigMissing
| ConfigInvalid (class_name : string).

(** One line of the operator at the prompt, or Ctrl-C.  The end of the list
    is the end of input. *)
Inductive Keystroke :=
| Typed (line : string)
| Interrupt.

(** The bastion service behind the client.  [sessions b] are the sessions the
    service lists for bastion [b], in listing order (one response page, as
    the script does not follow pages); the other operations answer as the
    service decides.  Each operation is called at most once per run, so
    answers that depend only on the arguments lose no generality. *)
Record BastionClient := {
  sessions : string -> list SessionSummary;
  list_sessions_failure : option ApiFailure;
  get_session_response : string -> Response Session;
  create_session_response : CreateSessionDetails -> Response Session;
  wait_until_response : Session -> string -> string -> Z -> Z -> Response Session;
}.

(** The surroundings of one run of the script. *)
Record World := {
  keyboard : list Keystroke;
  config_file : ConfigResult;
  file : string -> FileResult;
  bastion : BastionClient;
}.

(** Everything the script does to its surroundings, in order. *)
Inductive Event :=
| Print (text : string)
| Input (prompt : string)
| OpenFile (path : string)
| ConfigFromFile
| ListSessions (bastion_id state : string)
| GetSession (id : string)
| CreateSession (details : CreateSessionDetails)
| WaitUntil (response : Session) (property state : string)
    (max_interval_seconds max_wait_seconds : Z)
| ClipboardCopy (text : string).

(** ** The monad of the script: a trace of events and a value or an exception *)

Inductive Outcome (A : Type) :=
| Return (a : A)
| Raise (e : Exn).
Arguments Return {A} a.
Arguments Raise {A} e.

Definition Run (A : Type) : Type := list Event * Outcome A.

Definition trace {A} (r : Run A) : list Event := r.1.
Definition outcome {A} (r : Run A) : Outcome A := r.2.

#[global] Instance run_ret : MRet Run := fun A a => ([], Return a).
#[global] Instance run_bind : MBind Run := fun A B f m =>
  match m with
  | (t, Return a) => let r := f a in (t ++ trace r, outcome r)
  | (t, Raise e) => (t, Raise e)
  end.

Definition emit (ev : Event) : Run unit := ([ev], Return tt).
Definition raise {A} (e : Exn) : Run A := ([], Raise e).
Definition print (text : string) : Run unit := emit (Print text).
Definition sys_exit {A} (code : Z) : Run A := raise (SystemExit code).

(** [try: body / except ...: handler]: [handler e] is [None] when no clause
    matches [e], which then propagates. *)
Definition try_except {A} (body : Run A) (handler : Exn -> option (Run A)) : Run A :=
  match body with
  | (t, Return a) => (t, Return a)
  | (t, Raise e) =>
      match handler e with
      | Some h => (t ++ trace h, outcome h)
      | None => (t, Raise e)
      end
  end.

(** The exit status of the process: [sys.exit(code)] gives [code], an
    exception nobody caught gives 1 (130 for Ctrl-C), falling off the end
    gives 0. *)
Definition exit_status {A} (o : Outcome A) : Z :=
  match o with
  | Return _ => 0
  | Raise (SystemExit code) => code
  | Raise KeyboardInterrupt => 130
  | Raise _ => 1
  end.

(** ** The calls the script makes *)

(** [input(prompt)]: shows the prompt and reads the next line; at the end of
    input it raises [EOFError], on Ctrl-C [KeyboardInterrupt]. *)
Definition input (prompt : string) (keys : list Keystroke) : Run string :=
  emit (Input prompt);;
  match keys with
  | [] => raise EOFError
  | Interrupt :: _ => raise KeyboardInterrupt
  | Typed line :: _ => mret line
  end.

(** [l[i]] for a Python list, negative indices counting from the end. *)
Definition list_index {A} (l : list A) (i : Z) : Run A :=
  let n := Z.of_nat (length l) in
  let j := if i <? 0 then i + n else i in
  if (0 <=? j) && (j <? n)
  then match l !! Z.to_nat j with
       | Some x => mret x
       | None => raise IndexError
       end
  else raise IndexError.

(** [d[k]]. *)
Definition dict_getitem (d : list (string * string)) (k : string) : Run string :=
  match dict_get d k with
  | Some v => mret v
  | None => raise (KeyError k)
  end.

(** [with open(path, 'r') as f: f.read()]. *)
Definition open_read (w : World) (path : string) : Run string :=
  emit (OpenFile path);;
  match file w path with
  | FileText content => mret content
  | FileMissing => raise FileNotFoundError
  | FileUnreadable class_name => raise (OtherError class_name)
  end.

(** [oci.bastion.BastionClient(oci.config.from_file())]. *)
Definition client_from_file (w : World) : Run BastionClient :=
  emit ConfigFromFile;;
  match config_file w with
  | ConfigLoaded => mret (bastion w)
  | ConfigMissing => raise ConfigFileNotFound
  | ConfigInvalid class_name => raise (OtherError class_name)
  end.

Definition respond {A} (r : Response A) : Run A :=
  match r with
  | Data a => mret a
  | Failed f => raise (exn_of_failure f)
  end.

(** [bastion_client.list_sessions(bastion_id=..., session_lifecycle_state=...).data]:
    the service returns the sessions of the bastion that are in the state
    asked for. *)
Definition list_sessions (c : BastionClient) (bastion_id state : string)
  : Run (list SessionSummary) :=
  emit (ListSessions bastion_id state);;
  match list_sessions_failure c with
  | Some f => raise (exn_of_failure f)
  | None => mret (filter (fun s => sum_lifecycle_state s = state) (sessions c bastion_id))
  end.

(** [bastion_client.get_session(session_id=...)]. *)
Definition get_session (c : BastionClient) (id : string) : Run Session :=
  emit (GetSession id);; respond (get_session_response c id).

(** [bastion_client.create_session(create_session_details=...)]. *)
Definition create_session (c : BastionClient) (d : CreateSessionDetails) : Run Session :=
  emit (CreateSession d);; respond (create_session_response c d).

(** [oci.wait_until(client, response, property, state, max_interval_seconds=...,
    max_wait_seconds=...)]: the SDK's poll loop, seen from the script as one
    call that returns the response in which the property has the state, or
    raises. *)
Definition wait_until (c : BastionClient) (response : Session) (property state : string)
    (max_interval_seconds max_wait_seconds : Z) : Run Session :=
  emit (WaitUntil response property state max_interval_seconds max_wait_seconds);;
  respond (wait_until_response c response property state
             max_interval_seconds max_wait_seconds).

(** [pyperclip.copy(text)]. *)
Definition clipboard_copy (text : string) : Run unit := emit (ClipboardCopy text).

(** ** The script *)

Section Script.

(** The builtin [int] on a string: [None] stands for [ValueError]. *)
Variable int_of_str : string -> option Z.
Variable cfg : Config.

Definition int (s : string) : Run Z :=
  match int_of_str s with
  | Some n => mret n
  | None => raise ValueError
  end.

Definition read_public_key (w : World) (path : string) : Run string :=
  try_except
    (content ← open_read w path; mret (Str.strip content))
    (fun e =>
       match e with
       | FileNotFoundError => Some (
           print (CROSS +:+ " Error: Public key file not found at " +:+ path);;
           print "Please ensure an SSH key pair exists at the specified location.";;
           sys_exit 1)
       | _ => None
       end).

(** The [for] loop of [find_active_session]. *)
Fixpoint scan_sessions (bastion_client : BastionClient) (target_ocid : string)
    (active_sessions : list SessionSummary) : Run (option Session) :=
  match active_sessions with
  | [] => mret None
  | session :: rest =>
      if decide (sum_target_resource_id session = target_ocid)
      then
        print (TICK +:+ " Found active session: " +:+ sum_id session);;
        found ← get_session bastion_client (sum_id session);
        mret (Some found)
      else scan_sessions bastion_client target_ocid rest
  end.

Definition find_active_session (bastion_client : BastionClient)
    (bastion_ocid target_ocid : string) : Run (option Session) :=
  print ("Checking for active bastion sessions for server: " +:+ target_ocid +:+ "...");;
  try_except
    (active_sessions ← list_sessions bastion_client bastion_ocid "ACTIVE";
     scan_sessions bastion_client target_ocid active_sessions)
    (fun e =>
       match e with
       | ServiceError message => Some (
           print (CROSS +:+ " Error checking for sessions: " +:+ message);;
           sys_exit 1)
       | _ => None
       end).

Definition create_new_session (bastion_client : BastionClient)
    (bastion_ocid target_ocid public_key user : string) (ttl : Z) : Run Session :=
  print "No active session found. Creating a new session...";;
  try_except
    (let create_details := {|
       csd_bastion_id := bastion_ocid;
       csd_session_type := "MANAGED_SSH";
       csd_target_resource_id := target_ocid;
       csd_target_resource_operating_system_user_name := user;
       csd_public_key_content := public_key;
       csd_session_ttl_in_seconds := ttl |} in
     bastion_response ← create_session bastion_client create_details;
     let new_session_id := session_id bastion_response in
     print ("Waiting for new session " +:+ new_session_id +:+ " to become active...");;
     get_session_info ← get_session bastion_client new_session_id;
     active_session ← wait_until bastion_client get_session_info
                        "lifecycle_state" "ACTIVE" 10 120;
     print (TICK +:+ " New session " +:+ session_id active_session +:+ " is active.");;
     mret active_session)
    (fun e =>
       match e with
       | ServiceError message => Some (
           print (CROSS +:+ " Error creating session: " +:+ message);;
           sys_exit 1)
       | _ => None
       end).

Fixpoint print_menu (i : nat) (server_list : list string) : Run unit :=
  match server_list with
  | [] => mret tt
  | server_name :: rest =>
      print ("  " +:+ pretty (i + 1)%nat +:+ ": " +:+ server_name);;
      print_menu (S i) rest
  end.

(** One pass through the body of [while True]: [Some v] is [return v],
    [None] is reaching the end of the body, after which the loop goes round
    again. *)
Definition select_once (server_list : list string) (keys : list Keystroke)
  : Run (option string) :=
  try_except
    (choice ← input (NL +:+ "Enter a number (1-" +:+ pretty (length server_list) +:+ "): ") keys;
     n ← int choice;
     let choice_index := n - 1 in
     if (0 <=? choice_index) && (choice_index <? Z.of_nat (length server_list))
     then
       selected_server_name ← list_index server_list choice_index;
       print ("--> You selected: " +:+ selected_server_name +:+ NL);;
       v ← dict_getitem (TARGET_SERVERS cfg) selected_server_name;
       mret (Some v)
     else
       print (CROSS +:+ " Invalid selection. Please enter a number between 1 and "
              +:+ pretty (length server_list) +:+ ".");;
       mret None)
    (fun e =>
       match e with
       | ValueError => Some (
           print (CROSS +:+ " Invalid input. Please enter a number.");;
           mret None)
       | KeyboardInterrupt | EOFError => Some (
           print (NL +:+ NL +:+ "Selection cancelled. Exiting.");;
           sys_exit 0)
       | _ => None
       end).

(** The [while True] loop.  Every pass that comes round again has read one
    line, so the recursion is on the lines still to come; with none left
    [input] raises and the pass cannot come round. *)
Fixpoint select_loop (server_list : list string) (keys : list Keystroke) : Run string :=
  r ← select_once server_list keys;
  match r with
  | Some v => mret v
  | None =>
      match keys with
      | [] => raise EOFError
      | _ :: rest => select_loop server_list rest
      end
  end.

Definition select_target_server (w : World) : Run string :=
  print "Please select a server to connect to:";;
  let server_list := dict_keys (TARGET_SERVERS cfg) in
  print_menu 0 server_list;;
  select_loop server_list (keyboard w).

Definition main (w : World) : Run unit :=
  target_server_ocid ← select_target_server w;
  bastion_client ← try_except (client_from_file w)
    (fun e =>
       match e with
       | ConfigFileNotFound => Some (
           print (CROSS +:+ " Error: Default OCI config file not found at ~/.oci/config");;
           print "Please run 'oci setup config' to configure your environment.";;
           sys_exit 1)
       | _ => None
       end);
  session ← find_active_session bastion_client (BASTION_OCID cfg) target_server_ocid;
  session ← match session with
            | Some s => mret (Some s)
            | None =>
                public_key_content ← read_public_key w (PUBLIC_KEY_PATH cfg);
                s ← create_new_session bastion_client (BASTION_OCID cfg)
                      target_server_ocid public_key_content
                      (DEFAULT_SSH_USER cfg) (SESSION_TTL_SECONDS cfg);
                mret (Some s)
            end;
  let no_command : Run unit :=
    print (CROSS +:+ " Error: Could not retrieve SSH command from the session.");;
    sys_exit 1 in
  match session with
  | None => no_command
  | Some session =>
      match ssh_metadata session !! "command" with
      | None => no_command
      | Some ssh_command =>
          let ssh_command :=
            Str.replace "<privateKey>" (PRIVATE_KEY_PATH cfg) ssh_command in
          clipboard_copy ssh_command;;
          print (NL +:+ Str.repeat "=" 60);;
          print (PARTY +:+ " Success! Your SSH command is ready.");;
          print (TICK +:+ " It has been copied to your clipboard.");;
          print (Str.repeat "=" 60);;
          print (NL +:+ "Paste it into your terminal to connect:" +:+ NL);;
          print (ssh_command +:+ NL)
      end
  end.

End Script.

(** [main] up to and including the [if not session:] block: the session the
    script holds when it comes to the command. *)
Definition acquire (int_of_str : string -> option Z) (cfg : Config) (w : World)
  : Run (option Session) :=
  target_server_ocid ← select_target_server int_of_str cfg w;
  bastion_client ← try_except (client_from_file w)
    (fun e =>
       match e with
       | ConfigFileNotFound => Some (
           print (CROSS +:+ " Error: Default OCI config file not found at ~/.oci/config");;
           print "Please run 'oci setup config' to configure your environment.";;
           sys_exit 1)
       | _ => None
       end);
  session ← find_active_session bastion_client (BASTION_OCID cfg) target_server_ocid;
  match session with
  | Some s => mret (Some s)
  | None =>
      public_key_content ← read_public_key w (PUBLIC_KEY_PATH cfg);
      s ← create_new_session bastion_client (BASTION_OCID cfg)
            target_server_ocid public_key_content
            (DEFAULT_SSH_USER cfg) (SESSION_TTL_SECONDS cfg);
      mret (Some s)
  end.

(** [main] from the check of the command to the end. *)
Definition finish (cfg : Config) (session : option Session) : Run unit :=
  let no_command : Run unit :=
    print (CROSS +:+ " Error: Could not retrieve SSH command from the session.");;
    sys_exit 1 in
  match session with
  | None => no_command
  | Some session =>
      match ssh_metadata session !! "command" with
      | None => no_command
      | Some ssh_command =>
          let ssh_command :=
            Str.replace "<privateKey>" (PRIVATE_KEY_PATH cfg) ssh_command in
          clipboard_copy ssh_command;;
          print (NL +:+ Str.repeat "=" 60);;
          print (PARTY +:+ " Success! Your SSH command is ready.");;
          print (TICK +:+ " It has been copied to your clipboard.");;
          print (Str.repeat "=" 60);;
          print (NL +:+ "Paste it into your terminal to connect:" +:+ NL);;
          print (ssh_command +:+ NL)
      end
  end.

(** An [int] for the witnesses: plain decimal numerals, blanks around them
    allowed. *)
Definition digit_value (c : ascii) : option Z :=
  let n := nat_of_ascii c in
  if (Nat.leb 48 n && Nat.leb n 57)%bool then Some (Z.of_nat (n - 48)) else None.

Fixpoint decimal_go (acc : Z) (s : string) : option Z :=
  match s with
  | EmptyString => Some acc
  | String c s' =>
      match digit_value c with
      | Some d => decimal_go (10 * acc + d) s'
      | None => None
      end
  end.

Definition decimal (s : string) : option Z :=
  match Str.strip s with
  | EmptyString => None
  | t => decimal_go 0 t
  end.

(** ** Reading a trace *)

Definition creates (t : list Event) : list CreateSessionDetails :=
  omap (fun ev => match ev with CreateSession d => Some d | _ => None end) t.

Definition gets (t : list Event) : list string :=
  omap (fun ev => match ev with GetSession id => Some id | _ => None end) t.

Definition copies (t : list Event) : list string :=
  omap (fun ev => match ev with ClipboardCopy text => Some text | _ => None end) t.

Definition prints (t : list Event) : list string :=
  omap (fun ev => match ev with Print text => Some text | _ => None end) t.

(** Events of the terminal only. *)
Definition console (ev : Event) : Prop :=
  match ev with
  | Print _ | Input _ => True
  | _ => False
  end.

(** The texts of the script that the statements below name. *)
Definition prompt_text (n : nat) : string :=
  NL +:+ "Enter a number (1-" +:+ pretty n +:+ "): ".
Definition cancel_text : string := NL +:+ NL +:+ "Selection cancelled. Exiting.".
Definition not_a_number_text : string := CROSS +:+ " Invalid input. Please enter a number.".
Definition out_of_range_text (n : nat) : string :=
  CROSS +:+ " Invalid selection. Please enter a number between 1 and " +:+ pretty n +:+ ".".
Definition selected_text (name : string) : string := "--> You selected: " +:+ name +:+ NL.
Definition no_command_text : string :=
  CROSS +:+ " Error: Could not retrieve SSH command from the session.".
Definition key_not_found_text (path : string) : string :=
  CROSS +:+ " Error: Public key file not found at " +:+ path.
Definition key_guidance_text : string :=
  "Please ensure an SSH key pair exists at the specified location.".
Definition checking_text (target : string) : string :=
  "Checking for active bastion sessions for server: " +:+ target +:+ "...".
Definition found_text (id : string) : string := TICK +:+ " Found active session: " +:+ id.
Definition creating_text : string := "No active session found. Creating a new session...".
Definition waiting_text (id : string) : string :=
  "Waiting for new session " +:+ id +:+ " to become active...".

(** The placeholder of the command template. *)
Definition PLACEHOLDER : string := "<privateKey>".

(** A line of the operator is a valid selection when [int] reads a number
    between 1 and the number of servers from it. *)
Definition valid_line (int_of_str : string -> option Z) (n_servers : nat) (line : string)
  : option nat :=
  match int_of_str line with
  | Some n => if (1 <=? n) && (n <=? Z.of_nat n_servers) then Some (Z.to_nat (n - 1)) else None
  | None => None
  end.

(** The same on a keystroke that is a line. *)
Definition rejected (int_of_str : string -> option Z) (n_servers : nat) (k : Keystroke)
  : Prop :=
  match k with
  | Typed line => valid_line int_of_str n_servers line = None
  | Interrupt => False
  end.

(** What the script says to a rejected line. *)
Definition rejection_text (int_of_str : string -> option Z) (n_servers : nat)
    (k : Keystroke) : string :=
  match k with
  | Typed line =>
      match int_of_str line with
      | Some _ => out_of_range_text n_servers
      | None => not_a_number_text
      end
  | Interrupt => EmptyString
  end.

(** The request [create_new_session] builds. *)
Definition request (cfg : Config) (target public_key : string) : CreateSessionDetails := {|
  csd_bastion_id := BASTION_OCID cfg;
  csd_session_type := "MANAGED_SSH";
  csd_target_resource_id := target;
  csd_target_resource_operating_system_user_name := DEFAULT_SSH_USER cfg;
  csd_public_key_content := public_key;
  csd_session_ttl_in_seconds := SESSION_TTL_SECONDS cfg |}.

(** A listed session the lookup is after. *)
Definition reusable (target : string) (s : SessionSummary) : Prop :=
  sum_lifecycle_state s = "ACTIVE" ∧ sum_target_resource_id s = target.

#[global] Instance reusable_dec target s : Decision (reusable target s).
Proof. unfold reusable. apply _. Defined.

(** The first listed session that is active and bound to the target. *)
Fixpoint first_reusable (target : string) (l : list SessionSummary)
  : option SessionSummary :=
  match l with
  | [] => None
  | s :: rest => if decide (reusable target s) then Some s else first_reusable target rest
  end.

(** ** The workflow, path by path *)

Section PathTable.
Variable cfg : Config.

(** The banner and the command, as [main] prints them. *)
Definition delivery (ssh_command : string) : list Event :=
  [ ClipboardCopy ssh_command;
    Print (NL +:+ Str.repeat "=" 60);
    Print (PARTY +:+ " Success! Your SSH command is ready.");
    Print (TICK +:+ " It has been copied to your clipboard.");
    Print (Str.repeat "=" 60);
    Print (NL +:+ "Paste it into your terminal to connect:" +:+ NL);
    Print (ssh_command +:+ NL) ].

(** The end of [main], once it holds a session record. *)
Definition conclude (before : list Event) (session : Session) : Run unit :=
  match ssh_metadata session !! "command" with
  | None => (before ++ [Print no_command_text], Raise (SystemExit 1))
  | Some template =>
      (before ++ delivery (Str.replace PLACEHOLDER (PRIVATE_KEY_PATH cfg) template),
       Return tt)
  end.

(** A failed service call inside a [try] that catches [ServiceError]. *)
Definition failed {A} (before : list Event) (what : string) (f : ApiFailure) : Run A :=
  match f with
  | ServiceFailure message =>
      (before ++ [Print (CROSS +:+ what +:+ message)], Raise (SystemExit 1))
  | _ => (before, Raise (exn_of_failure f))
  end.

(** Every run behind the selection up to the point where a session record is
    in hand, one branch per answer of the surroundings; [obtained] says what
    happens from there. *)
Definition table {A} (obtained : list Event → Session → Run A)
    (w : World) (target : string) : Run A :=
  match config_file w with
  | ConfigMissing =>
      ([ ConfigFromFile;
         Print (CROSS +:+ " Error: Default OCI config file not found at ~/.oci/config");
         Print "Please run 'oci setup config' to configure your environment." ],
       Raise (SystemExit 1))
  | ConfigInvalid class_name => ([ConfigFromFile], Raise (OtherError class_name))
  | ConfigLoaded =>
    let c := bastion w in
    let t1 := [ ConfigFromFile; Print (checking_text target);
                ListSessions (BASTION_OCID cfg) "ACTIVE" ] in
    match list_sessions_failure c with
    | Some f => failed t1 " Error checking for sessions: " f
    | None =>
      match first_reusable target (sessions c (BASTION_OCID cfg)) with
      | Some s =>
        let t2 := t1 ++ [Print (found_text (sum_id s)); GetSession (sum_id s)] in
        match get_session_response c (sum_id s) with
        | Failed f => failed t2 " Error checking for sessions: " f
        | Data d => obtained t2 d
        end
      | None =>
        let t2 := t1 ++ [OpenFile (PUBLIC_KEY_PATH cfg)] in
        match file w (PUBLIC_KEY_PATH cfg) with
        | FileMissing =>
            (t2 ++ [ Print (key_not_found_text (PUBLIC_KEY_PATH cfg));
                     Print key_guidance_text ],
             Raise (SystemExit 1))
        | FileUnreadable class_name => (t2, Raise (OtherError class_name))
        | FileText content =>
          let d := request cfg target (Str.strip content) in
          let t3 := t2 ++ [Print creating_text; CreateSession d] in
          match create_session_response c d with
          | Failed f => failed t3 " Error creating session: " f
          | Data b =>
            let t4 := t3 ++ [ Print (waiting_text (session_id b));
                              GetSession (session_id b) ] in
            match get_session_response c (session_id b) with
            | Failed f => failed t4 " Error creating session: " f
            | Data g =>
              let t5 := t4 ++ [WaitUntil g "lifecycle_state" "ACTIVE" 10 120] in
              match wait_until_response c g "lifecycle_state" "ACTIVE" 10 120 with
              | Failed f => failed t5 " Error creating session: " f
              | Data a =>
                obtained
                  (t5 ++ [Print (TICK +:+ " New session " +:+ session_id a
                                 +:+ " is active.")]) a
              end
            end
          end
        end
      end
    end
  end.

(** The runs of [main] behind the selection. *)
Definition paths : World → string → Run unit := table conclude.

(** The runs of [acquire] behind the selection. *)
Definition reach : World → string → Run (option Session) :=
  table (fun before session => (before, Return (Some session))).

End PathTable.

(** What the terminal shows for a run of rejected lines. *)
Definition rejections (int_of_str : string -> option Z) (cfg : Config)
    (before : list Keystroke) : list Event :=
  before ≫= (fun k =>
    [ Input (prompt_text (length (TARGET_SERVERS cfg)));
      Print (rejection_text int_of_str (length (TARGET_SERVERS cfg)) k) ]).

(** ** A registry, a service and keyboards to run the script on *)

Definition demo : Config := {|
  TARGET_SERVERS := dict_literal [("server1", "ocid.A"); ("server2", "ocid.B")];
  BASTION_OCID := "ocid.bastion";
  DEFAULT_SSH_USER := "opc";
  SESSION_TTL_SECONDS := 1800;
  PRIVATE_KEY_PATH := "/home/op/.ssh/id_rsa";
  PUBLIC_KEY_PATH := "/home/op/.ssh/id_rsa.pub";
|}.

(** An [os.path.expanduser] for a home directory [/home/op]. *)
Definition expanduser_op (path : string) : string :=
  match path with
  | String "~" rest => "/home/op" +:+ rest
  | _ => path
  end.

Definition listed (id state target : string) : SessionSummary :=
  {| sum_id := id; sum_lifecycle_state := state; sum_target_resource_id := target |}.

(** A session record whose command template names the key twice. *)
Definition record (id target : string) : Session := {|
  session_id := id;
  lifecycle_state := "ACTIVE";
  target_resource_id := target;
  ssh_metadata :=
    {[ "command" :=
         "ssh -i <privateKey> -o ProxyCommand='ssh -i <privateKey> -W %h:%p host' opc@10.0.0.5" ]};
|}.

(** A session record without a command. *)
Definition bare_record (id target : string) : Session := {|
  session_id := id;
  lifecycle_state := "ACTIVE";
  target_resource_id := target;
  ssh_metadata := ∅;
|}.

(** A service that lists [listing], answers every fetch with [fetched],
    every create request with a fresh session [s9], and the poll with
    [polled]. *)
Definition service (listing : list SessionSummary) (fetched : Session)
    (polled : Response Session) : BastionClient := {|
  sessions := fun _ => listing;
  list_sessions_failure := None;
  get_session_response := fun _ => Data fetched;
  create_session_response := fun d => Data (bare_record "s9" (csd_target_resource_id d));
  wait_until_response := fun _ _ _ _ _ => polled;
|}.

Definition world (keys : list Keystroke) (key_file : FileResult) (c : BastionClient)
  : World := {|
  keyboard := keys;
  config_file := ConfigLoaded;
  file := fun _ => key_file;
  bastion := c;
|}.

Definition key_text : FileResult := FileText "ssh-rsa AAAAB3Nza op@laptop
".

(** The operator fumbles twice, then picks server1, for which an active
    session [s1] is listed behind a deleted one. *)
Definition reuse_world : World :=
  world [Typed "x"; Typed "9"; Typed "1"] FileMissing
    (service [listed "s0" "DELETED" "ocid.A"; listed "s1" "ACTIVE" "ocid.A"]
       (record "s1" "ocid.A") (Failed WaitTimedOut)).

(** The same, but the record fetched for [s1] has no command. *)
Definition bare_world : World :=
  world [Typed "1"] FileMissing
    (service [listed "s1" "ACTIVE" "ocid.A"] (bare_record "s1" "ocid.A")
       (Failed WaitTimedOut)).

(** Nothing active is listed for server1 and the key file is in place. *)
Definition create_world : World :=
  world [Typed "1"] key_text
    (service [listed "s0" "DELETED" "ocid.A"; listed "s2" "ACTIVE" "ocid.B"]
       (bare_record "s9" "ocid.A") (Data (record "s9" "ocid.A"))).

(** The same, but the new session does not become active in time. *)
Definition timeout_world : World :=
  world [Typed "1"] key_text
    (service [] (bare_record "s9" "ocid.A") (Failed WaitTimedOut)).

(** Nothing is listed and the public key file does not exist. *)
Definition no_key_world : World :=
  world [Typed "1"] FileMissing
    (service [] (bare_record "s9" "ocid.A") (Data (record "s9" "ocid.A"))).

(** Nothing is listed and the public key file may not be read. *)
Definition locked_key_world : World :=
  world [Typed "1"] (FileUnreadable "PermissionError")
    (service [] (bare_record "s9" "ocid.A") (Data (record "s9" "ocid.A"))).

(** The operator types a word, then presses Ctrl-C. *)
Definition cancel_world : World :=
  world [Typed "abc"; Interrupt] key_text
    (service [] (bare_record "s9" "ocid.A") (Data (record "s9" "ocid.A"))).

(** ** More to read off a trace *)

Definition opens (t : list Event) : list string :=
  omap (fun ev => match ev with OpenFile path => Some path | _ => None end) t.

(** The calls to the bastion service. *)
Definition is_call (ev : Event) : bool :=
  match ev with
  | ListSessions _ _ | GetSession _ | CreateSession _ | WaitUntil _ _ _ _ _ => true
  | _ => false
  end.

Definition calls (t : list Event) : list Event := List.filter is_call t.

(** One line of the menu, for the name at index [i]. *)
Definition menu_line (i : nat) (name : string) : Event :=
  Print ("  " +:+ pretty (i + 1)%nat +:+ ": " +:+ name).


Definition config_missing_text : string :=
  CROSS +:+ " Error: Default OCI config file not found at ~/.oci/config".
Definition config_hint_text : string :=
  "Please run 'oci setup config' to configure your environment.".
Definition lookup_error_text (message : string) : string :=
  CROSS +:+ " Error checking for sessions: " +:+ message.
Definition create_error_text (message : string) : string :=
  CROSS +:+ " Error creating session: " +:+ message.
Definition active_text (id : string) : string :=
  TICK +:+ " New session " +:+ id +:+ " is active.".

(** What a failed call inside [try ... except ServiceError] leaves behind:
    the message and [sys.exit(1)] for a [ServiceError], the exception itself
    for anything else. *)
Definition aborted {A} (text : string -> string) (f : ApiFailure) : Run A :=
  match f with
  | ServiceFailure message => ([Print (text message)], Raise (SystemExit 1))
  | _ => ([], Raise (exn_of_failure f))
  end.

(** More worlds: no provider profile; a service that refuses the listing; a
    service that lists [s1] but refuses to hand out its record; a service
    that refuses the create request; an empty registry. *)
Definition no_config_world : World := {|
  keyboard := [Typed "2"];
  config_file := ConfigMissing;
  file := fun _ => key_text;
  bastion := service [] (bare_record "s9" "ocid.B") (Failed WaitTimedOut);
|}.

Definition refusing (listing : list SessionSummary) (list_failure : option ApiFailure)
  : BastionClient := {|
  sessions := fun _ => listing;
  list_sessions_failure := list_failure;
  get_session_response := fun _ => Failed (ServiceFailure "NotAuthorizedOrNotFound");
  create_session_response := fun _ => Failed (ServiceFailure "LimitExceeded");
  wait_until_response := fun _ _ _ _ _ => Failed WaitTimedOut;
|}.

Definition list_error_world : World :=
  world [Typed "1"] key_text (refusing [] (Some (ServiceFailure "Unauthorized"))).

Definition fetch_error_world : World :=
  world [Typed "1"] key_text (refusing [listed "s1" "ACTIVE" "ocid.A"] None).

Definition create_error_world : World :=
  world [Typed "1"] key_text (refusing [] None).

Definition empty_registry : Config := {|
  TARGET_SERVERS := [];
  BASTION_OCID := "ocid.bastion";
  DEFAULT_SSH_USER := "opc";
  SESSION_TTL_SECONDS := 1800;
  PRIVATE_KEY_PATH := "/home/op/.ssh/id_rsa";
  PUBLIC_KEY_PATH := "/home/op/.ssh/id_rsa.pub";
|}.

(** ** The string builtins on examples *)

Example replace_two :
  Str.replace "<k>" "id_rsa" "ssh -i <k> -o P='ssh -i <k> x' y"
  = "ssh -i id_rsa -o P='ssh -i id_rsa x' y".
Proof. reflexivity. Qed.

Example replace_none : Str.replace "<k>" "id_rsa" "ssh host" = "ssh host".
Proof. reflexivity. Qed.

Example replace_empty_old : Str.replace EmptyString "-" "abc" = "-a-b-c-".
Proof. reflexivity. Qed.

Example replace_no_overlap : Str.replace "aa" "b" "aaa" = "ba".
Proof. reflexivity. Qed.

Example strip_both : Str.strip "  ssh-rsa AAAA user
" = "ssh-rsa AAAA user".
Proof. reflexivity. Qed.

(** ** Laws of the monad *)

Lemma bind_run {A B} (m : Run A) (f : A → Run B) :
  m ≫= f =
  (trace m ++ match outcome m with Return a => trace (f a) | Raise _ => [] end,
   match outcome m with Return a => outcome (f a) | Raise e => Raise e end).
Proof.
  destruct m as [t [a|e]]; unfold mbind, run_bind; simpl; [done|].
  by rewrite app_nil_r.
Qed.

Lemma bind_return {A B} (t : list Event) (a : A) (f : A → Run B) :
  (t, Return a) ≫= f = (t ++ trace (f a), outcome (f a)).
Proof. done. Qed.

Lemma bind_raise {A B} (t : list Event) (e : Exn) (f : A → Run B) :
  (t, Raise e) ≫= f = (t, Raise e).
Proof. done. Qed.

Lemma bind_assoc {A B C} (m : Run A) (f : A → Run B) (g : B → Run C) :
  (m ≫= f) ≫= g = m ≫= (fun a => f a ≫= g).
Proof.
  destruct m as [t [a|e]]; [|done].
  unfold mbind, run_bind; simpl.
  destruct (f a) as [t' [b|e']]; simpl; [|done].
  by rewrite app_assoc.
Qed.

Lemma mret_run {A} (a : A) : (mret a : Run A) = ([], Return a).
Proof. done. Qed.

Lemma try_return {A} t (a : A) h : try_except (t, Return a) h = (t, Return a).
Proof. done. Qed.

Lemma try_raise {A} t e (h : Exn → option (Run A)) :
  try_except (t, Raise e) h
  = match h e with Some r => (t ++ trace r, outcome r) | None => (t, Raise e) end.
Proof. done. Qed.

Lemma bind_ext {A B} (m : Run A) (f g : A → Run B) :
  (∀ a, f a = g a) → m ≫= f = m ≫= g.
Proof. intros Hfg. destruct m as [t [a|e]]; [|done]. by rewrite !bind_return, Hfg. Qed.

(** Run the binds whose left side is already a trace and an outcome. *)
Ltac run :=
  repeat first
    [ rewrite mret_run | rewrite bind_return | rewrite bind_raise
    | rewrite try_return | rewrite try_raise
    | progress unfold sys_exit, raise, print, clipboard_copy, emit
    | progress cbn [trace outcome fst snd app] ].

(** Take apart a hypothesis that an event is in an explicit trace. *)
Ltac pick H :=
  repeat first
    [ apply elem_of_nil in H; destruct H
    | apply elem_of_cons in H as [H|H]; [try discriminate H|] ].

Lemma run_eta {A} (r : Run A) : (trace r, outcome r) = r.
Proof. by destruct r. Qed.

Lemma creates_app t1 t2 : creates (t1 ++ t2) = creates t1 ++ creates t2.
Proof. apply omap_app. Qed.
Lemma copies_app t1 t2 : copies (t1 ++ t2) = copies t1 ++ copies t2.
Proof. apply omap_app. Qed.
Lemma gets_app t1 t2 : gets (t1 ++ t2) = gets t1 ++ gets t2.
Proof. apply omap_app. Qed.

Lemma console_quiet t :
  Forall console t → creates t = [] ∧ copies t = [] ∧ gets t = [].
Proof.
  induction 1 as [|ev t Hev _ IH]; [done|].
  destruct ev; try done; apply IH.
Qed.

Lemma console_not_elem t ev : Forall console t → ¬ console ev → ev ∉ t.
Proof. intros Ht Hev Hin. by eapply Hev, Forall_forall. Qed.

(** ** [str.replace] replaces every occurrence and nothing else *)

Module StrFacts.
Import Str.

Lemma app_empty s : EmptyString +:+ s = s.
Proof. done. Qed.

Lemma app_cons c s t : String c s +:+ t = String c (s +:+ t).
Proof. done. Qed.

Lemma app_nil_r s : s +:+ EmptyString = s.
Proof. induction s as [|c s IH]; [done|]. by rewrite app_cons, IH. Qed.

Lemma app_assoc s t u : (s +:+ t) +:+ u = s +:+ (t +:+ u).
Proof. induction s as [|c s IH]; [done|]. by rewrite !app_cons, IH. Qed.

Lemma length_app s t :
  String.length (s +:+ t) = (String.length s + String.length t)%nat.
Proof. induction s as [|c s IH]; [done|]. rewrite app_cons. simpl. by rewrite IH. Qed.

Lemma prefix_cons a s b t :
  String.prefix (String a s) (String b t) = bool_decide (a = b) && String.prefix s t.
Proof. simpl. destruct (ascii_dec a b); by case_bool_decide. Qed.

Lemma prefix_empty s : String.prefix EmptyString s = true.
Proof. by destruct s. Qed.

Lemma prefix_app s t : String.prefix s (s +:+ t) = true.
Proof.
  induction s as [|c s IH]; [apply prefix_empty|].
  change (String c s +:+ t) with (String c (s +:+ t)).
  rewrite prefix_cons, IH. by rewrite bool_decide_eq_true_2.
Qed.

Lemma prefix_split s t : String.prefix s t = true → ∃ u, t = s +:+ u.
Proof.
  revert t. induction s as [|c s IH]; intros t H; [by exists t|].
  destruct t as [|d t]; [done|].
  rewrite prefix_cons in H. apply andb_true_iff in H as [Hc Hs].
  apply bool_decide_eq_true in Hc as ->.
  destruct (IH _ Hs) as [u ->]. by exists u.
Qed.

Lemma prefix_weaken s t u : String.prefix s t = true → String.prefix s (t +:+ u) = true.
Proof.
  intros [v ->]%prefix_split. rewrite app_assoc. apply prefix_app.
Qed.

(** A prefix of [p + q] lies within [p] or runs over its end. *)
Lemma prefix_over s p q :
  String.prefix s (p +:+ q) = true →
  String.prefix s p = true ∨ ∃ t, s = p +:+ t ∧ t ≠ EmptyString ∧ String.prefix t q = true.
Proof.
  revert s. induction p as [|c p IH]; intros s H.
  - destruct s as [|a s]; [left; apply prefix_empty|].
    right. by exists (String a s).
  - destruct s as [|a s]; [by left|].
    change (String c p +:+ q) with (String c (p +:+ q)) in H.
    rewrite prefix_cons in H. apply andb_true_iff in H as [Hc Hs].
    apply bool_decide_eq_true in Hc as ->.
    destruct (IH _ Hs) as [Hp | (t & -> & Ht & Hq)].
    + left. rewrite prefix_cons, Hp. by rewrite bool_decide_eq_true_2.
    + right. by exists t.
Qed.

(** A prefix of [a + b] no longer than [a] is a prefix of [a]. *)
Lemma prefix_short t a b :
  String.prefix t (a +:+ b) = true → (String.length t ≤ String.length a)%nat →
  String.prefix t a = true.
Proof.
  intros H Hlen. destruct (prefix_over _ _ _ H) as [|(u & -> & Hu & _)]; [done|].
  rewrite length_app in Hlen. destruct u; [done|simpl in Hlen; lia].
Qed.

Lemma occursb_spec old s :
  occursb old s = true ↔ ∃ a b, s = a +:+ old +:+ b.
Proof.
  split.
  - induction s as [|c s IH]; cbn [occursb]; intros H;
      apply orb_true_iff in H as [H|H]; try done.
    + destruct (prefix_split _ _ H) as [u Hu]. by exists EmptyString, u.
    + destruct (prefix_split _ _ H) as [u Hu]. by exists EmptyString, u.
    + destruct (IH H) as (a & b & ->). by exists (String c a), b.
  - intros (a & b & ->). induction a as [|c a IH].
    + rewrite app_empty.
      destruct (old +:+ b) eqn:E; cbn [occursb]; rewrite <- E, prefix_app; done.
    + rewrite app_cons. cbn [occursb]. rewrite IH. apply orb_true_r.
Qed.

Lemma occursb_cons old c s :
  occursb old (String c s) = false →
  String.prefix old (String c s) = false ∧ occursb old s = false.
Proof. cbn [occursb]. by intros [??]%orb_false_iff. Qed.

(** Proper non-empty suffixes, as [unbordered] lists them. *)
Lemma suffixes_from_elem p t :
  t ≠ EmptyString → t ∈ suffixes_from (p +:+ t).
Proof.
  intros Ht. induction p as [|c p IH]; simpl.
  - destruct t; [done|]. simpl. left.
  - by right.
Qed.

Lemma unbordered_no_overlap w p t :
  unbordered w = true → w = p +:+ t → p ≠ EmptyString → t ≠ EmptyString →
  String.prefix t w = false.
Proof.
  intros Hw -> Hp Ht. destruct p as [|c p]; [done|]. simpl in Hw.
  rewrite forallb_forall in Hw.
  specialize (Hw t). rewrite <- list_elem_of_In in Hw.
  specialize (Hw (suffixes_from_elem p t Ht)).
  by apply negb_true_iff in Hw.
Qed.

Section Replace.
Variables old new : string.

Lemma replace_scan_skip u s :
  replace_scan old new (String.length u) (u +:+ s) = replace_scan old new 0 s.
Proof.
  induction u as [|c u IH]; simpl; [|done].
  destruct s; done.
Qed.

(** An occurrence at the front is replaced and the scan goes on behind it. *)
Lemma replace_scan_hit rest :
  old ≠ EmptyString →
  replace_scan old new 0 (old +:+ rest) = new +:+ replace_scan old new 0 rest.
Proof.
  intros Hold. destruct old as [|o old'] eqn:E; [done|].
  change (String o old' +:+ rest) with (String o (old' +:+ rest)).
  cbn [replace_scan].
  change (String o (old' +:+ rest)) with (String o old' +:+ rest).
  rewrite prefix_app. cbn [String.length]. rewrite Nat.sub_1_r. cbn [Nat.pred].
  f_equal. rewrite <- E. rewrite <- (replace_scan_skip old' rest). by rewrite E.
Qed.

(** Text without an occurrence is copied. *)
Lemma replace_scan_free p :
  old ≠ EmptyString → occursb old p = false → replace_scan old new 0 p = p.
Proof.
  intros Hold. induction p as [|c p IH]; [done|].
  intros [Hpre Hp]%occursb_cons. cbn [replace_scan]. rewrite Hpre.
  by rewrite IH.
Qed.

(** Text without an occurrence in front of an occurrence is copied too, when
    occurrences cannot overlap. *)
Lemma replace_scan_pass p rest :
  unbordered old = true → occursb old p = false →
  replace_scan old new 0 (p +:+ old +:+ rest)
  = p +:+ replace_scan old new 0 (old +:+ rest).
Proof.
  intros Hunb. induction p as [|c p IH]; [done|].
  intros [Hpre Hp]%occursb_cons.
  change (String c p +:+ old +:+ rest) with (String c (p +:+ old +:+ rest)).
  cbn [replace_scan].
  change (String c (p +:+ old +:+ rest)) with (String c p +:+ (old +:+ rest)).
  destruct (String.prefix old (String c p +:+ (old +:+ rest))) eqn:Hhit.
  - exfalso. apply prefix_over in Hhit as [Hin | (t & Hsplit & Ht & Hover)].
    + congruence.
    + assert (String.prefix t old = true) as Hbord.
      { apply (prefix_short _ _ rest); [done|].
        rewrite Hsplit, length_app. simpl. lia. }
      by rewrite (unbordered_no_overlap old (String c p) t) in Hbord.
  - simpl. by rewrite IH.
Qed.

Lemma unbordered_nonempty : unbordered old = true → old ≠ EmptyString.
Proof. by destruct old. Qed.

(** Joining pieces free of [old] with [old] and replacing gives the pieces
    joined with [new]. *)
Lemma replace_join pieces :
  unbordered old = true →
  forallb (fun p => negb (occursb old p)) pieces = true →
  replace old new (join old pieces) = join new pieces.
Proof.
  intros Hunb. pose proof (unbordered_nonempty Hunb) as Hold.
  unfold replace. destruct old as [|o old'] eqn:E; [done|]. rewrite <- E in *.
  induction pieces as [|p [|q rest] IH]; intros Hfree.
  - done.
  - simpl in *. apply replace_scan_free; [done|].
    by apply andb_true_iff in Hfree as [->%negb_true_iff _].
  - apply andb_true_iff in Hfree as [Hp%negb_true_iff Hrest].
    change (join old (p :: q :: rest)) with (p +:+ old +:+ join old (q :: rest)).
    change (join new (p :: q :: rest)) with (p +:+ new +:+ join new (q :: rest)).
    rewrite replace_scan_pass, replace_scan_hit by done.
    by rewrite IH.
Qed.

(** Every string is pieces free of [old] joined with [old]. *)
Lemma first_occurrence s :
  old ≠ EmptyString →
  occursb old s = false ∨
  ∃ p rest, s = p +:+ old +:+ rest ∧ occursb old p = false.
Proof.
  intros Hold. induction s as [|c s IH].
  - left. simpl. destruct old; [done|]. done.
  - destruct (String.prefix old (String c s)) eqn:Hpre.
    + right. destruct (prefix_split _ _ Hpre) as [u Hu].
      exists EmptyString, u. split; [done|]. destruct old; done.
    + destruct IH as [Hfree | (p & rest & -> & Hp)].
      * left. simpl in *. by rewrite Hpre, Hfree.
      * right. exists (String c p), rest. split; [done|].
        cbn [occursb]. rewrite Hp, orb_false_r.
        destruct (String.prefix old (String c p)) eqn:Hin; [|done].
        pose proof (prefix_weaken _ _ (old +:+ rest) Hin) as Hw.
        rewrite app_cons in Hw. congruence.
Qed.

Lemma split_exists s :
  old ≠ EmptyString →
  ∃ pieces, pieces ≠ [] ∧ s = join old pieces ∧
            forallb (fun p => negb (occursb old p)) pieces = true.
Proof.
  intros Hold.
  remember (String.length s) as n eqn:Hn. revert s Hn.
  induction (lt_wf n) as [n _ IH]. intros s ->.
  destruct (first_occurrence s Hold) as [Hfree | (p & rest & -> & Hp)].
  - exists [s]. simpl. by rewrite Hfree.
  - assert (String.length rest < String.length (p +:+ old +:+ rest))%nat as Hlt.
    { rewrite !length_app. destruct old; [done|simpl; lia]. }
    destruct (IH _ Hlt rest eq_refl) as (pieces & Hne & -> & Hall).
    exists (p :: pieces). split; [done|]. split.
    + destruct pieces; done.
    + simpl. by rewrite Hp, Hall.
Qed.

End Replace.

End StrFacts.

(** ** Dicts *)

Lemma dict_get_elem (d : list (string * string)) k :
  k ∈ d.*1 → ∃ v, dict_get d k = Some v ∧ (k, v) ∈ d.
Proof.
  induction d as [|[k' v'] d IH]; simpl; [by intros ?%elem_of_nil|].
  intros Hk. destruct (decide (k' = k)) as [->|Hne].
  - exists v'. split; [done|left].
  - apply elem_of_cons in Hk as [?|Hk]; [done|].
    destruct (IH Hk) as (v & ? & ?). exists v. split; [done|by right].
Qed.

(** In a dict, whose keys are distinct, the value found for the key of an
    entry is the value of that entry. *)
Lemma dict_get_lookup (d : list (string * string)) i k v :
  NoDup d.*1 → d !! i = Some (k, v) → dict_get d k = Some v.
Proof.
  revert i. induction d as [|[k' v'] d IH]; intros i Hnd Hi; [done|].
  simpl in *. apply NoDup_cons in Hnd as [Hfresh Hnd].
  destruct i as [|i]; simpl in Hi.
  - injection Hi as -> ->. by rewrite decide_True.
  - rewrite decide_False; [by eapply IH|].
    intros ->. apply Hfresh. apply list_elem_of_fmap.
    exists (k, v). split; [done|]. by eapply list_elem_of_lookup_2.
Qed.

Lemma dict_set_keys d k v :
  (dict_set d k v).*1 = if decide (k ∈ d.*1) then d.*1 else d.*1 ++ [k].
Proof.
  induction d as [|[k' v'] d IH].
  - destruct (decide (k ∈ ([] : list (string * string)).*1)) as [Hin|]; [|done].
    by apply elem_of_nil in Hin.
  - cbn [dict_set]. destruct (decide (k' = k)) as [->|Hne].
    + rewrite decide_True; [done|left].
    + cbn [fmap list_fmap fst]. rewrite IH.
      destruct (decide (k ∈ d.*1)) as [Hin|Hout].
      * rewrite decide_True; [done|by right].
      * rewrite decide_False; [done|].
        by intros [?|?]%elem_of_cons.
Qed.

Lemma dict_set_NoDup d k v : NoDup d.*1 → NoDup (dict_set d k v).*1.
Proof.
  intros Hnd. rewrite dict_set_keys. case_decide; [done|].
  apply NoDup_app. split; [done|]. split; [|apply NoDup_singleton].
  intros x Hx ->%list_elem_of_singleton. done.
Qed.

(** A dict literal has distinct keys. *)
Lemma dict_literal_NoDup items : NoDup (dict_literal items).*1.
Proof.
  unfold dict_literal.
  assert (NoDup ([] : list (string * string)).*1) as Hnil by constructor.
  revert Hnil. generalize ([] : list (string * string)).
  induction items as [|[k v] items IH]; intros d Hd; [done|].
  simpl. apply IH. by apply dict_set_NoDup.
Qed.

(** ** The selection prompt *)

Section Selection.
Variable int_of_str : string → option Z.
Variable cfg : Config.

Local Abbreviation server_list := (dict_keys (TARGET_SERVERS cfg)).
Local Abbreviation n_servers := (length (dict_keys (TARGET_SERVERS cfg))).

Lemma list_index_in_range {A} (l : list A) (i : nat) x :
  l !! i = Some x → list_index l (Z.of_nat i) = ([], Return x).
Proof.
  intros Hx. pose proof (lookup_lt_Some _ _ _ Hx) as Hlt.
  unfold list_index.
  destruct (Z.ltb_spec (Z.of_nat i) 0); [lia|].
  destruct (Z.leb_spec 0 (Z.of_nat i)); [|lia].
  destruct (Z.ltb_spec (Z.of_nat i) (Z.of_nat (length l))); [|lia].
  simpl. by rewrite Nat2Z.id, Hx.
Qed.

Lemma valid_line_inv sl line i :
  valid_line int_of_str sl line = Some i →
  ∃ n, int_of_str line = Some n ∧ 1 ≤ n ≤ Z.of_nat sl ∧ n - 1 = Z.of_nat i.
Proof.
  unfold valid_line. destruct (int_of_str line) as [n|]; [|done].
  destruct (Z.leb_spec 1 n); [|done]. destruct (Z.leb_spec n (Z.of_nat sl)); [|done].
  simpl. intros [= <-]. exists n. split; [done|]. split; lia.
Qed.

(** At the end of input and on Ctrl-C the pass ends the process with
    status 0. *)
Lemma select_once_end :
  select_once int_of_str cfg server_list []
  = ([Input (prompt_text n_servers); Print cancel_text], Raise (SystemExit 0)).
Proof. done. Qed.

Lemma select_once_interrupt rest :
  select_once int_of_str cfg server_list (Interrupt :: rest)
  = ([Input (prompt_text n_servers); Print cancel_text], Raise (SystemExit 0)).
Proof. done. Qed.

(** A rejected line is answered and the pass reaches its end. *)
Lemma select_once_rejected k rest :
  rejected int_of_str n_servers k →
  select_once int_of_str cfg server_list (k :: rest)
  = ([Input (prompt_text n_servers); Print (rejection_text int_of_str n_servers k)],
     Return None).
Proof.
  destruct k as [line|]; [|done]. unfold rejected, valid_line, rejection_text.
  unfold select_once, input, int, emit. run.
  destruct (int_of_str line) as [n|]; [|reflexivity].
  intros Hrej. run.
  assert ((0 <=? n - 1) && (n - 1 <? Z.of_nat n_servers) = false) as ->;
    [|reflexivity].
  destruct (Z.leb_spec 1 n); destruct (Z.leb_spec n (Z.of_nat n_servers));
    try done; apply andb_false_iff; lia.
Qed.

(** A valid line returns the value the dict holds for the name at that
    position of the menu. *)
Lemma select_once_valid line rest i name :
  valid_line int_of_str n_servers line = Some i →
  server_list !! i = Some name →
  select_once int_of_str cfg server_list (Typed line :: rest)
  = match dict_get (TARGET_SERVERS cfg) name with
    | Some value =>
        ([Input (prompt_text n_servers); Print (selected_text name)], Return (Some value))
    | None =>
        ([Input (prompt_text n_servers); Print (selected_text name)], Raise (KeyError name))
    end.
Proof.
  intros (n & Hn & Hrange & Hi)%valid_line_inv Hname.
  unfold select_once, input, int, emit. run. rewrite Hn. run.
  destruct (Z.leb_spec 0 (n - 1)); [|lia].
  destruct (Z.ltb_spec (n - 1) (Z.of_nat n_servers)); [|lia].
  cbn [andb]. rewrite Hi, (list_index_in_range _ _ _ Hname).
  unfold dict_getitem, print, emit. run. by destruct (dict_get _ name).
Qed.

Lemma select_loop_rejected k rest :
  rejected int_of_str n_servers k →
  select_loop int_of_str cfg server_list (k :: rest)
  = ([Input (prompt_text n_servers); Print (rejection_text int_of_str n_servers k)],
     Return tt) ≫= (fun _ => select_loop int_of_str cfg server_list rest).
Proof.
  intros Hrej. cbn [select_loop]. by rewrite (select_once_rejected _ _ Hrej).
Qed.

Lemma select_loop_valid line rest i name value :
  valid_line int_of_str n_servers line = Some i →
  TARGET_SERVERS cfg !! i = Some (name, value) →
  NoDup server_list →
  select_loop int_of_str cfg server_list (Typed line :: rest)
  = ([Input (prompt_text n_servers); Print (selected_text name)], Return value).
Proof.
  intros Hvalid Hentry Hnd. cbn [select_loop].
  rewrite (select_once_valid _ _ i name Hvalid).
  - by rewrite (dict_get_lookup _ _ _ _ Hnd Hentry).
  - unfold dict_keys. by rewrite list_lookup_fmap, Hentry.
Qed.

Lemma select_loop_cancelled keys :
  keys = [] ∨ (∃ rest, keys = Interrupt :: rest) →
  select_loop int_of_str cfg server_list keys
  = ([Input (prompt_text n_servers); Print cancel_text], Raise (SystemExit 0)).
Proof. by intros [->|[rest ->]]. Qed.

(** Whatever is typed, the prompt only talks to the terminal, and it ends
    with a value of the registry or with [sys.exit(0)]. *)
Lemma select_loop_cases keys :
  Forall console (trace (select_loop int_of_str cfg server_list keys)) ∧
  (outcome (select_loop int_of_str cfg server_list keys) = Raise (SystemExit 0) ∨
   ∃ name value, (name, value) ∈ TARGET_SERVERS cfg ∧
     outcome (select_loop int_of_str cfg server_list keys) = Return value).
Proof.
  induction keys as [|k rest IH].
  - rewrite select_loop_cancelled by auto. split; [|by left].
    repeat constructor.
  - destruct k as [line|].
    2:{ rewrite select_loop_cancelled by eauto. split; [|by left].
        repeat constructor. }
    destruct (valid_line int_of_str n_servers line) as [i|] eqn:Hvalid.
    + destruct (valid_line_inv _ _ _ Hvalid) as (n & _ & Hrange & Hi).
      destruct (lookup_lt_is_Some_2 server_list i) as [name Hname]; [lia|].
      cbn [select_loop]. rewrite (select_once_valid _ _ i name Hvalid Hname).
      destruct (dict_get_elem (TARGET_SERVERS cfg) name) as (value & -> & Hin).
      { by eapply list_elem_of_lookup_2. }
      split; [repeat constructor|]. right. by exists name, value.
    + rewrite (select_loop_rejected (Typed line)) by done.
      rewrite bind_return. split; [|apply IH].
      repeat (constructor; [done|]). apply IH.
Qed.

Lemma print_menu_console i (l : list string) :
  Forall console (trace (print_menu i l)) ∧ outcome (print_menu i l) = Return tt.
Proof.
  revert i. induction l as [|name l IH]; intros i; [by split; constructor|].
  cbn [print_menu]. unfold print, emit. rewrite bind_return.
  destruct (IH (S i)) as [Ht Ho]. split; [by constructor|done].
Qed.

Lemma select_target_server_eq w :
  select_target_server int_of_str cfg w
  = (Print "Please select a server to connect to:"
       :: trace (print_menu 0 server_list)
       ++ trace (select_loop int_of_str cfg server_list (keyboard w)),
     outcome (select_loop int_of_str cfg server_list (keyboard w))).
Proof.
  unfold select_target_server, print, emit. rewrite bind_return.
  destruct (print_menu_console 0 server_list) as [_ Ho].
  rewrite <- (run_eta (print_menu 0 server_list)), Ho. by rewrite bind_return.
Qed.

Lemma select_target_server_cases w :
  Forall console (trace (select_target_server int_of_str cfg w)) ∧
  (outcome (select_target_server int_of_str cfg w) = Raise (SystemExit 0) ∨
   ∃ name value, (name, value) ∈ TARGET_SERVERS cfg ∧
     outcome (select_target_server int_of_str cfg w) = Return value).
Proof.
  rewrite select_target_server_eq.
  destruct (select_loop_cases (keyboard w)) as [Ht Ho].
  split; [|done]. constructor; [done|]. apply Forall_app. split; [|done].
  apply print_menu_console.
Qed.

End Selection.

(** ** The embedding follows the path table *)

Arguments Str.repeat : simpl never.
Arguments Str.replace : simpl never.
Arguments Str.strip : simpl never.

Lemma first_reusable_Some target l s :
  first_reusable target l = Some s ↔
  ∃ pre post, l = pre ++ s :: post ∧ reusable target s ∧
              Forall (fun x => ¬ reusable target x) pre.
Proof.
  split.
  - induction l as [|x l IH]; [done|]. simpl.
    destruct (decide (reusable target x)) as [Hx|Hx].
    + intros [= ->]. by exists [], l.
    + intros (pre & post & -> & Hs & Hpre)%IH.
      exists (x :: pre), post. split; [done|]. split; [done|by constructor].
  - intros (pre & post & -> & Hs & Hpre).
    induction Hpre as [|x pre Hx _ IH]; simpl.
    + by rewrite decide_True.
    + by rewrite decide_False.
Qed.

Lemma first_reusable_None target l :
  first_reusable target l = None ↔ ∀ s, s ∈ l → ¬ reusable target s.
Proof.
  induction l as [|x l IH]; simpl.
  - split; [|done]. by intros _ s ?%elem_of_nil.
  - destruct (decide (reusable target x)) as [Hx|Hx].
    + split; [done|]. intros H. destruct (H x); [left|done].
    + rewrite IH. split.
      * intros H s [->|?]%elem_of_cons; auto.
      * intros H s Hs. apply H. by right.
Qed.

Lemma first_reusable_elem target l s :
  s ∈ l → reusable target s → is_Some (first_reusable target l).
Proof.
  intros Hin Hs. destruct (first_reusable target l) eqn:E; [done|].
  exfalso. by eapply first_reusable_None.
Qed.

Section Paths.
Variable int_of_str : string → option Z.
Variable cfg : Config.

(** The loop of the lookup over the listing the service filtered. *)
Lemma scan_sessions_filter c target (l : list SessionSummary) :
  scan_sessions c target (filter (fun s => sum_lifecycle_state s = "ACTIVE") l)
  = match first_reusable target l with
    | Some s =>
        ([Print (found_text (sum_id s)); GetSession (sum_id s)], Return tt) ≫=
        (fun _ => respond (get_session_response c (sum_id s)) ≫=
                  (fun found => mret (Some found)))
    | None => ([], Return None)
    end.
Proof.
  induction l as [|x l IH]; [done|].
  cbn [first_reusable]. unfold reusable at 1.
  destruct (decide (sum_lifecycle_state x = "ACTIVE")) as [Hact|Hact].
  - rewrite filter_cons_True by done. cbn [scan_sessions].
    destruct (decide (sum_target_resource_id x = target)) as [Htgt|Htgt].
    + rewrite decide_True by done. unfold get_session, respond.
      destruct (get_session_response c (sum_id x)); by run.
    + rewrite decide_False by (by intros [_ ?]). apply IH.
  - rewrite filter_cons_False by done.
    rewrite decide_False by (by intros [? _]). apply IH.
Qed.

Lemma find_active_session_run c bastion_ocid target :
  find_active_session c bastion_ocid target
  = let t1 := [Print (checking_text target); ListSessions bastion_ocid "ACTIVE"] in
    match list_sessions_failure c with
    | Some f => failed t1 " Error checking for sessions: " f
    | None =>
      match first_reusable target (sessions c bastion_ocid) with
      | Some s =>
        let t2 := t1 ++ [Print (found_text (sum_id s)); GetSession (sum_id s)] in
        match get_session_response c (sum_id s) with
        | Failed f => failed t2 " Error checking for sessions: " f
        | Data d => (t2, Return (Some d))
        end
      | None => (t1, Return None)
      end
    end.
Proof.
  unfold find_active_session, list_sessions, print, emit. run.
  destruct (list_sessions_failure c) as [f|].
  - run. by destruct f.
  - run. rewrite scan_sessions_filter.
    destruct (first_reusable target (sessions c bastion_ocid)) as [s|]; [|by run].
    run. unfold respond. destruct (get_session_response c (sum_id s)) as [d|f].
    + by run.
    + unfold raise. run. by destruct f.
Qed.

(** [main] is [acquire] followed by [finish]. *)
Lemma main_acquire w :
  main int_of_str cfg w = acquire int_of_str cfg w ≫= finish cfg.
Proof.
  unfold main, acquire. rewrite bind_assoc. apply bind_ext. intros target.
  rewrite bind_assoc. apply bind_ext. intros bastion_client.
  rewrite bind_assoc. by apply bind_ext.
Qed.

Lemma acquire_reach w :
  acquire int_of_str cfg w = select_target_server int_of_str cfg w ≫= reach cfg w.
Proof.
  unfold acquire. apply bind_ext. intros target.
  unfold reach, table, client_from_file, emit. run.
  destruct (config_file w); [run|by run|by run].
  rewrite find_active_session_run. cbn zeta.
  destruct (list_sessions_failure (bastion w)) as [f|]; [by destruct f|].
  destruct (first_reusable target (sessions (bastion w) (BASTION_OCID cfg))) as [s|].
  - destruct (get_session_response (bastion w) (sum_id s)) as [d|f]; [|by destruct f].
    by run.
  - run. unfold read_public_key, open_read, emit. run.
    destruct (file w (PUBLIC_KEY_PATH cfg)) as [content| |class_name];
      [|by run|by run].
    run. unfold create_new_session, create_session, print, emit. run.
    fold (request cfg target (Str.strip content)).
    unfold respond.
    destruct (create_session_response _ _) as [b|f]; [|run; by destruct f].
    run. unfold get_session, emit, respond. run.
    destruct (get_session_response _ _) as [g|f]; [|run; by destruct f].
    run. unfold wait_until, emit, respond. run.
    destruct (wait_until_response _ _ _ _ _ _) as [a|f]; [|run; by destruct f].
    by run.
Qed.

Lemma finish_conclude before session :
  (before, Return (Some session)) ≫= finish cfg = conclude cfg before session.
Proof.
  rewrite bind_return. unfold finish, conclude, delivery. cbn beta iota zeta.
  destruct (ssh_metadata session !! "command"); by run.
Qed.

Lemma reach_finish w target :
  reach cfg w target ≫= finish cfg = paths cfg w target.
Proof.
  unfold reach, paths, table, failed.
  repeat case_match; subst; cbn zeta; rewrite ?finish_conclude; by run.
Qed.

Lemma main_paths w :
  main int_of_str cfg w = select_target_server int_of_str cfg w ≫= paths cfg w.
Proof.
  rewrite main_acquire, acquire_reach, bind_assoc. apply bind_ext.
  intros target. apply reach_finish.
Qed.

End Paths.

(** ** Properties of the workflow *)

Section Workflow.
Variable int_of_str : string → option Z.
Variable cfg : Config.

Local Abbreviation select w := (select_target_server int_of_str cfg w).
Local Abbreviation run_main w := (main int_of_str cfg w).

(** A run of [main] is the selection alone when the operator cancels, and
    the selection followed by one path otherwise. *)
Lemma main_split w :
  Forall console (trace (select w)) ∧
  ((outcome (select w) = Raise (SystemExit 0) ∧
    run_main w = (trace (select w), Raise (SystemExit 0))) ∨
   (∃ name target, (name, target) ∈ TARGET_SERVERS cfg ∧
      outcome (select w) = Return target ∧
      run_main w = (trace (select w) ++ trace (paths cfg w target),
                    outcome (paths cfg w target)))).
Proof.
  destruct (select_target_server_cases int_of_str cfg w) as [Hcon Hout].
  split; [done|]. rewrite main_paths.
  destruct (select w) as [ts o]; simpl in *.
  destruct Hout as [-> | (name & target & Hin & ->)]; [by left|].
  right. by exists name, target.
Qed.

Lemma creates_after ts t : Forall console ts → creates (ts ++ t) = creates t.
Proof. intros H. rewrite creates_app. by destruct (console_quiet _ H) as (-> & _ & _). Qed.

Lemma copies_after ts t : Forall console ts → copies (ts ++ t) = copies t.
Proof. intros H. rewrite copies_app. by destruct (console_quiet _ H) as (_ & -> & _). Qed.

Lemma gets_after ts t : Forall console ts → gets (ts ++ t) = gets t.
Proof. intros H. rewrite gets_app. by destruct (console_quiet _ H) as (_ & _ & ->). Qed.

Lemma elem_after ts t ev : Forall console ts → ¬ console ev → ev ∈ ts ++ t → ev ∈ t.
Proof.
  intros Hts Hev [Hin|Hin]%elem_of_app; [|done].
  by destruct (console_not_elem _ _ Hts Hev).
Qed.

Lemma last_after (ts t : list Event) ev : last t = Some ev → last (ts ++ t) = Some ev.
Proof. intros H. by rewrite last_app, H. Qed.

(** Unfold the path table into its branches. *)
Ltac branches :=
  unfold paths, reach, table, conclude, failed, delivery;
  repeat case_match; subst; cbn [trace outcome fst snd app].

Lemma creates_at_most_one w : (length (creates (trace (run_main w))) ≤ 1)%nat.
Proof.
  destruct (main_split w) as [Hcon [[_ ->] | (name & target & _ & _ & ->)]].
  - cbn [trace fst]. destruct (console_quiet _ Hcon) as (-> & _). simpl. lia.
  - cbn [trace fst]. rewrite creates_after by done.
    branches; simpl; lia.
Qed.

Lemma main_selected w target :
  outcome (select w) = Return target →
  Forall console (trace (select w)) ∧
  run_main w = (trace (select w) ++ trace (paths cfg w target),
                outcome (paths cfg w target)).
Proof.
  intros Hsel.
  destruct (main_split w) as [Hcon [[Hexit _] | (name & target' & _ & Hret & ->)]].
  - congruence.
  - split; [done|]. congruence.
Qed.

Lemma main_cancelled w :
  outcome (select w) = Raise (SystemExit 0) →
  run_main w = (trace (select w), Raise (SystemExit 0)).
Proof.
  intros Hsel.
  destruct (main_split w) as [_ [[_ ->] | (name & target' & _ & Hret & _)]];
    [done|congruence].
Qed.

(** With a reusable session listed, no create request is made. *)
Lemma reuse_creates_nothing w target s0 :
  outcome (select w) = Return target →
  s0 ∈ sessions (bastion w) (BASTION_OCID cfg) → reusable target s0 →
  creates (trace (run_main w)) = [].
Proof.
  intros Hsel Hin Hs0. destruct (main_selected w target Hsel) as [Hcon ->].
  cbn [trace fst]. rewrite creates_after by done.
  destruct (first_reusable_elem _ _ _ Hin Hs0) as [s Hs].
  unfold paths, table. rewrite Hs. branches; done.
Qed.

(** C1: a run issues at most one create request; and when the listing holds
    an active session for the selected target, no create request is made and
    a listed session for that target is the one reused: it is the only
    session fetched, and what reaches the clipboard is built from its
    record. *)
Theorem one_session_per_invocation :
  (∀ w, (length (creates (trace (run_main w))) ≤ 1)%nat) ∧
  (∀ w target s,
     outcome (select w) = Return target →
     s ∈ filter (fun s => sum_lifecycle_state s = "ACTIVE")
           (sessions (bastion w) (BASTION_OCID cfg)) →
     sum_target_resource_id s = target →
     creates (trace (run_main w)) = []) ∧
  (∀ w target s,
     outcome (select w) = Return target →
     config_file w = ConfigLoaded →
     list_sessions_failure (bastion w) = None →
     s ∈ filter (fun s => sum_lifecycle_state s = "ACTIVE")
           (sessions (bastion w) (BASTION_OCID cfg)) →
     sum_target_resource_id s = target →
     ∃ s', s' ∈ filter (fun s => sum_lifecycle_state s = "ACTIVE")
                  (sessions (bastion w) (BASTION_OCID cfg)) ∧
           sum_target_resource_id s' = target ∧
           gets (trace (run_main w)) = [sum_id s'] ∧
           ∀ d, get_session_response (bastion w) (sum_id s') = Data d →
                copies (trace (run_main w))
                = match ssh_metadata d !! "command" with
                  | Some template =>
                      [Str.replace PLACEHOLDER (PRIVATE_KEY_PATH cfg) template]
                  | None => []
                  end).
Proof.
  split; [apply creates_at_most_one|]. split.
  - intros w target s Hsel [Hact Hin]%list_elem_of_filter Htgt.
    by apply (reuse_creates_nothing w target s).
  - intros w target s Hsel Hcfg Hlist [Hact Hin]%list_elem_of_filter Htgt.
    destruct (first_reusable_elem target _ s Hin) as [s' Hs']; [done|].
    pose proof Hs' as (pre & post & Hsplit & [Hact' Htgt'] & _)%first_reusable_Some.
    exists s'. split; [|split; [done|]].
    { apply list_elem_of_filter. split; [done|].
      rewrite Hsplit. apply elem_of_app. right. left. }
    destruct (main_selected w target Hsel) as [Hcon ->]. cbn [trace fst].
    rewrite gets_after, copies_after by done.
    unfold paths, table. rewrite Hcfg, Hlist, Hs'. cbn zeta. split.
    + branches; done.
    + intros d ->. unfold conclude, delivery.
      destruct (ssh_metadata d !! "command"); done.
Qed.

(** C2: with a listed session that is active and bound to the target, the
    lookup fetches the first such session by its identifier and returns the
    record fetched; the workflow makes no create request. *)
Theorem lookup_returns_first_active_match :
  (∀ c bastion_ocid target s0,
     list_sessions_failure c = None →
     s0 ∈ sessions c bastion_ocid → reusable target s0 →
     ∃ pre s post,
       sessions c bastion_ocid = pre ++ s :: post ∧ reusable target s ∧
       Forall (fun x => ¬ reusable target x) pre ∧
       gets (trace (find_active_session c bastion_ocid target)) = [sum_id s] ∧
       ∀ d, get_session_response c (sum_id s) = Data d →
            find_active_session c bastion_ocid target
            = ([ Print (checking_text target); ListSessions bastion_ocid "ACTIVE";
                 Print (found_text (sum_id s)); GetSession (sum_id s) ],
               Return (Some d))) ∧
  (∀ w target s0,
     outcome (select w) = Return target →
     s0 ∈ sessions (bastion w) (BASTION_OCID cfg) → reusable target s0 →
     creates (trace (run_main w)) = []).
Proof.
  split; [|apply reuse_creates_nothing].
  intros c bastion_ocid target s0 Hlist Hin Hs0.
  destruct (first_reusable_elem target _ s0 Hin Hs0) as [s Hs].
  pose proof Hs as (pre & post & Hsplit & Hreusable & Hpre)%first_reusable_Some.
  exists pre, s, post. do 3 (split; [done|]).
  rewrite find_active_session_run, Hlist, Hs. cbn zeta. split.
  - unfold failed. repeat case_match; done.
  - by intros d ->.
Qed.

(** C3, as amended: with no listed session that is active and bound to the
    target, the lookup returns "not found"; the workflow then makes exactly
    one create request when the public key file can be read, and none when
    it cannot. *)
Theorem no_match_creates_once_given_key :
  ∀ w target,
    outcome (select w) = Return target →
    config_file w = ConfigLoaded →
    list_sessions_failure (bastion w) = None →
    (∀ s, s ∈ sessions (bastion w) (BASTION_OCID cfg) → ¬ reusable target s) →
    find_active_session (bastion w) (BASTION_OCID cfg) target
    = ([ Print (checking_text target); ListSessions (BASTION_OCID cfg) "ACTIVE" ],
       Return None) ∧
    (∀ content, file w (PUBLIC_KEY_PATH cfg) = FileText content →
       creates (trace (run_main w)) = [request cfg target (Str.strip content)]) ∧
    ((∀ content, file w (PUBLIC_KEY_PATH cfg) ≠ FileText content) →
       creates (trace (run_main w)) = []).
Proof.
  intros w target Hsel Hcfg Hlist Hnone%first_reusable_None.
  split; [by rewrite find_active_session_run, Hlist, Hnone|].
  destruct (main_selected w target Hsel) as [Hcon ->]. cbn [trace fst].
  rewrite creates_after by done.
  unfold paths, table. rewrite Hcfg, Hlist, Hnone. cbn zeta. split.
  - intros content ->. branches; done.
  - intros Hkey. destruct (file w (PUBLIC_KEY_PATH cfg)) eqn:E; [|done..].
    by destruct (Hkey content).
Qed.

Lemma placeholder_unbordered : Str.unbordered PLACEHOLDER = true.
Proof. reflexivity. Qed.

(** C4: command assembly replaces every occurrence of the placeholder with
    the private key path and changes nothing else.  A template made of pieces
    free of the placeholder, joined by the placeholder, becomes the same
    pieces joined by the key path; a template without the placeholder is
    unchanged; every template is made of such pieces; and whatever [main]
    copies to the clipboard is such a replacement of the command template of
    the session record it obtained from the service, and is the command it
    prints last. *)
Theorem command_assembly_replaces_every_placeholder :
  (∀ template,
     ∃ pieces,
       template = Str.join PLACEHOLDER pieces ∧
       forallb (fun p => negb (Str.occursb PLACEHOLDER p)) pieces = true ∧
       Str.replace PLACEHOLDER (PRIVATE_KEY_PATH cfg) template
       = Str.join (PRIVATE_KEY_PATH cfg) pieces) ∧
  (∀ pieces,
     forallb (fun p => negb (Str.occursb PLACEHOLDER p)) pieces = true →
     Str.replace PLACEHOLDER (PRIVATE_KEY_PATH cfg) (Str.join PLACEHOLDER pieces)
     = Str.join (PRIVATE_KEY_PATH cfg) pieces) ∧
  (∀ template,
     Str.occursb PLACEHOLDER template = false →
     Str.replace PLACEHOLDER (PRIVATE_KEY_PATH cfg) template = template) ∧
  (∀ w text,
     ClipboardCopy text ∈ trace (run_main w) →
     ∃ session template pieces,
       ((∃ id, get_session_response (bastion w) id = Data session) ∨
        (∃ g, wait_until_response (bastion w) g "lifecycle_state" "ACTIVE" 10 120
              = Data session)) ∧
       ssh_metadata session !! "command" = Some template ∧
       template = Str.join PLACEHOLDER pieces ∧
       forallb (fun p => negb (Str.occursb PLACEHOLDER p)) pieces = true ∧
       text = Str.join (PRIVATE_KEY_PATH cfg) pieces ∧
       copies (trace (run_main w)) = [text] ∧
       last (trace (run_main w)) = Some (Print (text +:+ NL))).
Proof.
  assert (∀ template,
            ∃ pieces, template = Str.join PLACEHOLDER pieces ∧
              forallb (fun p => negb (Str.occursb PLACEHOLDER p)) pieces = true ∧
              Str.replace PLACEHOLDER (PRIVATE_KEY_PATH cfg) template
              = Str.join (PRIVATE_KEY_PATH cfg) pieces) as Hsplit.
  { intros template.
    destruct (StrFacts.split_exists PLACEHOLDER template)
      as (pieces & _ & -> & Hfree); [done|].
    exists pieces. do 2 (split; [done|]).
    by apply StrFacts.replace_join; [apply placeholder_unbordered|]. }
  split; [done|]. split; [|split].
  - intros pieces Hfree.
    by apply StrFacts.replace_join; [apply placeholder_unbordered|].
  - intros template Hfree.
    apply (StrFacts.replace_join _ _ [template]); [apply placeholder_unbordered|].
    simpl. by rewrite Hfree.
  - intros w text Hcopy.
    assert (∀ template,
              text = Str.replace PLACEHOLDER (PRIVATE_KEY_PATH cfg) template →
              ∃ pieces, template = Str.join PLACEHOLDER pieces ∧
                forallb (fun p => negb (Str.occursb PLACEHOLDER p)) pieces = true ∧
                text = Str.join (PRIVATE_KEY_PATH cfg) pieces) as Hpieces.
    { intros template ->. apply Hsplit. }
    destruct (main_split w) as [Hcon [[_ Hrun] | (name & target & _ & _ & Hrun)]];
      rewrite Hrun in *; cbn [trace fst] in *.
    { by destruct (console_not_elem _ (ClipboardCopy text) Hcon (fun H => H) Hcopy). }
    apply elem_after in Hcopy; [|done|by intros []].
    rewrite copies_after by done.
    revert Hcopy. branches; intros Hcopy; pick Hcopy;
      injection Hcopy as Htext;
      match goal with
      | Hd : _ = Data ?d, Hc : ssh_metadata ?d !! "command" = Some ?t |- _ =>
          destruct (Hpieces t Htext) as (pieces & ? & ? & ?);
          exists d, t, pieces; subst text;
          repeat split; eauto using last_after
      end.
Qed.

(** Every create request of a run is the one [create_new_session] builds
    from the configuration, for some target and public key. *)
Lemma create_request_shape w d :
  CreateSession d ∈ trace (run_main w) →
  ∃ target public_key, d = request cfg target public_key.
Proof.
  intros Hin.
  destruct (main_split w) as [Hcon [[_ Hrun] | (name & target & _ & _ & Hrun)]];
    rewrite Hrun in *; cbn [trace fst] in *.
  { by destruct (console_not_elem _ (CreateSession d) Hcon (fun H => H) Hin). }
  apply elem_after in Hin; [|done|by intros []].
  revert Hin. branches; intros Hin; pick Hin; injection Hin as ->; eauto.
Qed.

(** Nothing is copied to the clipboard before [main] holds a session. *)
Lemma acquire_silent w : copies (trace (acquire int_of_str cfg w)) = [].
Proof.
  rewrite acquire_reach.
  destruct (select_target_server_cases int_of_str cfg w) as [Hcon _].
  destruct (select w) as [ts [target|e]]; cbn [trace fst] in Hcon.
  - rewrite bind_return. cbn [trace fst]. rewrite copies_after by done.
    branches; done.
  - rewrite bind_raise. cbn [trace fst]. by apply console_quiet.
Qed.

(** C5: when the session record [main] holds has no command in its SSH
    metadata, the script prints the "could not retrieve SSH command" message
    and exits with status 1; the clipboard is never written. *)
Theorem missing_command_is_fatal :
  ∀ w session,
    outcome (acquire int_of_str cfg w) = Return (Some session) →
    ssh_metadata session !! "command" = None →
    run_main w
    = (trace (acquire int_of_str cfg w) ++ [Print no_command_text],
       Raise (SystemExit 1)) ∧
    exit_status (outcome (run_main w)) = 1 ∧
    last (trace (run_main w)) = Some (Print no_command_text) ∧
    copies (trace (run_main w)) = [].
Proof.
  intros w session Hacq Hcmd.
  assert (run_main w
          = (trace (acquire int_of_str cfg w) ++ [Print no_command_text],
             Raise (SystemExit 1))) as Hrun.
  { rewrite main_acquire, <- (run_eta (acquire int_of_str cfg w)), Hacq.
    rewrite bind_return. unfold finish. rewrite Hcmd. by run. }
  split; [done|]. rewrite Hrun. cbn [trace outcome fst snd].
  split; [done|]. split; [apply last_snoc|].
  by rewrite copies_app, acquire_silent.
Qed.

(** C6, as amended: while the public key file cannot be read, no create
    request is made.  When the workflow comes to read it (no session was
    reused) and the file does not exist, the script prints the guidance and
    exits with status 1; when the file exists but cannot be read, the
    exception is not caught: the process ends with status 1 right after the
    attempt, without the guidance. *)
Theorem unreadable_key_never_creates :
  ∀ w,
    ((∀ content, file w (PUBLIC_KEY_PATH cfg) ≠ FileText content) →
       creates (trace (run_main w)) = []) ∧
    (file w (PUBLIC_KEY_PATH cfg) = FileMissing →
     OpenFile (PUBLIC_KEY_PATH cfg) ∈ trace (run_main w) →
       outcome (run_main w) = Raise (SystemExit 1) ∧
       exit_status (outcome (run_main w)) = 1 ∧
       ∃ before, trace (run_main w)
                 = before ++ [ OpenFile (PUBLIC_KEY_PATH cfg);
                               Print (key_not_found_text (PUBLIC_KEY_PATH cfg));
                               Print key_guidance_text ]) ∧
    (∀ class_name,
       file w (PUBLIC_KEY_PATH cfg) = FileUnreadable class_name →
       OpenFile (PUBLIC_KEY_PATH cfg) ∈ trace (run_main w) →
       outcome (run_main w) = Raise (OtherError class_name) ∧
       exit_status (outcome (run_main w)) = 1 ∧
       last (trace (run_main w)) = Some (OpenFile (PUBLIC_KEY_PATH cfg))).
Proof.
  intros w.
  destruct (main_split w) as [Hcon [[_ Hrun] | (name & target & _ & _ & Hrun)]];
    rewrite Hrun; cbn [trace outcome fst snd].
  { destruct (console_quiet _ Hcon) as (Hcreates & _).
    split; [done|].
    split; [|intros class_name]; intros _ Hin;
      by destruct (console_not_elem _ (OpenFile (PUBLIC_KEY_PATH cfg)) Hcon
                     (fun H => H) Hin). }
  rewrite creates_after by done. split; [|split].
  - intros Hkey. branches; try done;
      match goal with H : file w _ = FileText ?c |- _ => by destruct (Hkey c) end.
  - intros Hfile Hin. apply elem_after in Hin; [|done|by intros []].
    revert Hin. unfold paths, table. cbn zeta. rewrite Hfile.
    branches; intros Hin; pick Hin.
    do 2 (split; [done|]).
    exists (trace (select w)
            ++ [ConfigFromFile; Print (checking_text target);
                ListSessions (BASTION_OCID cfg) "ACTIVE"]).
    by rewrite <- app_assoc.
  - intros class_name Hfile Hin. apply elem_after in Hin; [|done|by intros []].
    revert Hin. unfold paths, table. cbn zeta. rewrite Hfile.
    branches; intros Hin; pick Hin.
    do 2 (split; [done|]). by apply last_after.
Qed.

(** C7: when the poll for the new session gives up after the maximum wait,
    the exception reaches the top: the process ends with status 1, the poll is
    the last thing the run did, and nothing was copied to the clipboard or
    printed as a command; the whole trace is the selection followed by the
    nine events listed. *)
Theorem poll_timeout_is_fatal :
  ∀ w g property state max_interval max_wait,
    WaitUntil g property state max_interval max_wait ∈ trace (run_main w) →
    wait_until_response (bastion w) g property state max_interval max_wait
    = Failed WaitTimedOut →
    outcome (run_main w) = Raise MaximumWaitTimeExceeded ∧
    exit_status (outcome (run_main w)) = 1 ∧
    copies (trace (run_main w)) = [] ∧
    last (trace (run_main w))
    = Some (WaitUntil g property state max_interval max_wait) ∧
    ∃ target content b,
      trace (run_main w)
      = trace (select w)
        ++ [ ConfigFromFile;
             Print (checking_text target);
             ListSessions (BASTION_OCID cfg) "ACTIVE";
             OpenFile (PUBLIC_KEY_PATH cfg);
             Print creating_text;
             CreateSession (request cfg target (Str.strip content));
             Print (waiting_text (session_id b));
             GetSession (session_id b);
             WaitUntil g property state max_interval max_wait ].
Proof.
  intros w g property state max_interval max_wait Hin Hwait.
  destruct (main_split w) as [Hcon [[_ Hrun] | (name & target & _ & _ & Hrun)]];
    rewrite Hrun in *; cbn [trace outcome fst snd] in *.
  { by destruct (console_not_elem _ (WaitUntil g property state max_interval max_wait)
                   Hcon (fun H => H) Hin). }
  apply elem_after in Hin; [|done|by intros []].
  rewrite copies_after by done.
  revert Hin. branches; intros Hin; pick Hin;
    injection Hin as -> -> -> -> ->; try congruence.
  do 3 (split; [done|]). split; [by apply last_after|].
  match goal with
  | Hf : file w _ = FileText ?c, Hb : create_session_response _ _ = Data ?b |- _ =>
      by exists target, c, b
  end.
Qed.

End Workflow.

(** C10: every create request of a run carries the configured user and
    time-to-live, whatever target was selected; with the values the script
    ships with, these are the empty user name of [DEFAULT_SSH_USER] and 1800
    seconds. *)
Theorem create_request_user_and_ttl_fixed :
  ∀ int_of_str,
    (∀ cfg w d,
       CreateSession d ∈ trace (main int_of_str cfg w) →
       csd_target_resource_operating_system_user_name d = DEFAULT_SSH_USER cfg ∧
       csd_session_ttl_in_seconds d = SESSION_TTL_SECONDS cfg) ∧
    (∀ expanduser w d,
       CreateSession d ∈ trace (main int_of_str (shipped expanduser) w) →
       csd_target_resource_operating_system_user_name d = EmptyString ∧
       csd_session_ttl_in_seconds d = 1800).
Proof.
  intros int_of_str. split.
  - intros cfg w d (target & public_key & ->)%create_request_shape. done.
  - intros expanduser w d (target & public_key & ->)%create_request_shape. done.
Qed.

(** ** The prompt: selection, re-prompt and cancellation *)

Section Prompt.
Variable int_of_str : string → option Z.
Variable cfg : Config.

Local Abbreviation server_list := (dict_keys (TARGET_SERVERS cfg)).
Local Abbreviation n_servers := (length (TARGET_SERVERS cfg)).

Lemma n_servers_keys : length server_list = n_servers.
Proof. apply length_fmap. Qed.

Lemma select_loop_skips before rest :
  Forall (rejected int_of_str n_servers) before →
  select_loop int_of_str cfg server_list (before ++ rest)
  = (rejections int_of_str cfg before
     ++ trace (select_loop int_of_str cfg server_list rest),
     outcome (select_loop int_of_str cfg server_list rest)).
Proof.
  induction 1 as [|k before Hk _ IH];
    [symmetry; apply (run_eta (select_loop int_of_str cfg server_list rest))|].
  rewrite <- n_servers_keys in Hk.
  rewrite <- app_comm_cons, (select_loop_rejected _ _ _ _ Hk), bind_return, IH.
  rewrite n_servers_keys. cbn [trace outcome fst snd].
  change (rejections int_of_str cfg (k :: before))
    with ([ Input (prompt_text n_servers);
            Print (rejection_text int_of_str n_servers k) ]
          ++ rejections int_of_str cfg before).
  by rewrite <- app_assoc.
Qed.

Lemma valid_line_in_range line n :
  int_of_str line = Some n → 1 ≤ n ≤ Z.of_nat n_servers →
  valid_line int_of_str n_servers line = Some (Z.to_nat (n - 1)).
Proof.
  intros Hn [Hlo Hhi]. unfold valid_line. rewrite Hn.
  destruct (Z.leb_spec 1 n); [|lia]. destruct (Z.leb_spec n (Z.of_nat n_servers)); [|lia].
  done.
Qed.

(** C8: after any number of rejected lines, a line that [int] reads as a
    number between 1 and the size of the registry selects the name at that
    position of the menu, and the selection returns the value the registry
    holds for that name (with the distinct keys of a dict: the value of that
    very entry).  A line that is not a number, or a number out of range, is
    answered with a message and the prompt is shown again: the loop goes on
    with the rest of the input. *)
Theorem selection_returns_registry_value :
  (∀ w before line rest n,
     keyboard w = before ++ Typed line :: rest →
     Forall (rejected int_of_str n_servers) before →
     int_of_str line = Some n → 1 ≤ n ≤ Z.of_nat n_servers →
     ∃ name value,
       server_list !! Z.to_nat (n - 1) = Some name ∧
       dict_get (TARGET_SERVERS cfg) name = Some value ∧
       outcome (select_target_server int_of_str cfg w) = Return value ∧
       (NoDup server_list →
        TARGET_SERVERS cfg !! Z.to_nat (n - 1) = Some (name, value))) ∧
  (∀ k rest,
     rejected int_of_str n_servers k →
     select_loop int_of_str cfg server_list (k :: rest)
     = ([ Input (prompt_text n_servers);
          Print (rejection_text int_of_str n_servers k) ], Return tt)
       ≫= (fun _ => select_loop int_of_str cfg server_list rest)).
Proof.
  split.
  - intros w before line rest n Hkeys Hbefore Hn Hrange.
    pose proof (valid_line_in_range _ _ Hn Hrange) as Hvalid.
    destruct (lookup_lt_is_Some_2 (TARGET_SERVERS cfg) (Z.to_nat (n - 1)))
      as [[name value0] Hentry]; [lia|].
    assert (server_list !! Z.to_nat (n - 1) = Some name) as Hname.
    { unfold dict_keys. by rewrite list_lookup_fmap, Hentry. }
    destruct (dict_get_elem (TARGET_SERVERS cfg) name) as (value & Hget & _).
    { by eapply list_elem_of_lookup_2. }
    exists name, value. do 2 (split; [done|]). split.
    + rewrite select_target_server_eq, Hkeys. cbn [outcome snd].
      rewrite select_loop_skips by done. cbn [outcome snd select_loop].
      rewrite <- n_servers_keys in Hvalid.
      rewrite (select_once_valid _ _ _ _ _ name Hvalid Hname), Hget. by run.
    + intros Hnd. rewrite Hentry. do 2 f_equal.
      rewrite (dict_get_lookup _ _ _ _ Hnd Hentry) in Hget. congruence.
  - intros k rest Hk. rewrite <- n_servers_keys in *.
    by apply select_loop_rejected.
Qed.

(** C9: when the operator cancels at the prompt (Ctrl-C, or the end of the
    input), after any number of rejected lines, the script prints the
    cancellation message and ends with exit status 0; it has touched nothing
    but the terminal. *)
Theorem cancellation_exits_zero :
  ∀ w before,
    Forall (rejected int_of_str n_servers) before →
    keyboard w = before ∨ (∃ rest, keyboard w = before ++ Interrupt :: rest) →
    outcome (main int_of_str cfg w) = Raise (SystemExit 0) ∧
    exit_status (outcome (main int_of_str cfg w)) = 0 ∧
    last (trace (main int_of_str cfg w)) = Some (Print cancel_text) ∧
    Forall console (trace (main int_of_str cfg w)).
Proof.
  intros w before Hbefore Hkeys.
  assert (∃ tail, keyboard w = before ++ tail ∧
            (tail = [] ∨ ∃ rest, tail = Interrupt :: rest)) as (tail & Hw & Htail).
  { destruct Hkeys as [->|[rest ->]]; [exists []|exists (Interrupt :: rest)];
      rewrite ?app_nil_r; eauto. }
  pose proof (select_target_server_eq int_of_str cfg w) as Hsel.
  rewrite Hw, select_loop_skips, (select_loop_cancelled _ _ tail Htail) in Hsel by done.
  cbn [trace outcome fst snd] in Hsel.
  destruct (select_target_server_cases int_of_str cfg w) as [Hcon _].
  rewrite (main_cancelled int_of_str cfg w) by (by rewrite Hsel).
  cbn [trace outcome fst snd]. do 2 (split; [done|]). split; [|done].
  rewrite Hsel. cbn [trace fst].
  change [Input (prompt_text (length server_list)); Print cancel_text]
    with ([Input (prompt_text (length server_list))] ++ [Print cancel_text]).
  rewrite app_comm_cons, !app_assoc. apply last_snoc.
Qed.

End Prompt.

(** ** The theorems at work on the demo worlds *)

Lemma one_session_per_invocation_witness :
  ∃ s', s' ∈ filter (fun s => sum_lifecycle_state s = "ACTIVE")
               (sessions (bastion reuse_world) (BASTION_OCID demo)) ∧
        sum_target_resource_id s' = "ocid.A" ∧
        gets (trace (main decimal demo reuse_world)) = [sum_id s'] ∧
        ∀ d, get_session_response (bastion reuse_world) (sum_id s') = Data d →
             copies (trace (main decimal demo reuse_world))
             = match ssh_metadata d !! "command" with
               | Some template =>
                   [Str.replace PLACEHOLDER (PRIVATE_KEY_PATH demo) template]
               | None => []
               end.
Proof.
  destruct (one_session_per_invocation decimal demo) as (_ & _ & Hreuse).
  apply (Hreuse reuse_world "ocid.A" (listed "s1" "ACTIVE" "ocid.A")).
  - vm_compute. reflexivity.
  - reflexivity.
  - reflexivity.
  - vm_compute. constructor.
  - reflexivity.
Defined.

Lemma lookup_returns_first_active_match_witness :
  ∃ pre s post,
    sessions (bastion reuse_world) "ocid.bastion" = pre ++ s :: post ∧
    reusable "ocid.A" s ∧
    Forall (fun x => ¬ reusable "ocid.A" x) pre ∧
    gets (trace (find_active_session (bastion reuse_world) "ocid.bastion" "ocid.A"))
    = [sum_id s] ∧
    ∀ d, get_session_response (bastion reuse_world) (sum_id s) = Data d →
         find_active_session (bastion reuse_world) "ocid.bastion" "ocid.A"
         = ([ Print (checking_text "ocid.A"); ListSessions "ocid.bastion" "ACTIVE";
              Print (found_text (sum_id s)); GetSession (sum_id s) ],
            Return (Some d)).
Proof.
  destruct (lookup_returns_first_active_match decimal demo) as (Hlookup & _).
  apply (Hlookup (bastion reuse_world) "ocid.bastion" "ocid.A"
                 (listed "s1" "ACTIVE" "ocid.A")).
  - reflexivity.
  - vm_compute. right. left.
  - split; reflexivity.
Defined.

Lemma no_match_creates_once_given_key_witness :
  creates (trace (main decimal demo create_world))
  = [request demo "ocid.A" "ssh-rsa AAAAB3Nza op@laptop"].
Proof.
  destruct (no_match_creates_once_given_key decimal demo create_world "ocid.A")
    as (_ & Hcreate & _).
  - vm_compute. reflexivity.
  - reflexivity.
  - reflexivity.
  - apply first_reusable_None. vm_compute. reflexivity.
  - apply (Hcreate "ssh-rsa AAAAB3Nza op@laptop
"). reflexivity.
Defined.

Lemma command_assembly_replaces_every_placeholder_witness :
  Str.replace PLACEHOLDER (PRIVATE_KEY_PATH demo)
    (Str.join PLACEHOLDER ["ssh -i "; " -o ProxyCommand='ssh -i "; " -W x' host"])
  = Str.join (PRIVATE_KEY_PATH demo)
      ["ssh -i "; " -o ProxyCommand='ssh -i "; " -W x' host"] ∧
  Str.replace PLACEHOLDER (PRIVATE_KEY_PATH demo) "ssh host" = "ssh host".
Proof.
  destruct (command_assembly_replaces_every_placeholder decimal demo)
    as (_ & Hall & Hnone & _).
  split.
  - apply Hall. reflexivity.
  - apply Hnone. reflexivity.
Defined.

Lemma missing_command_is_fatal_witness :
  main decimal demo bare_world
  = (trace (acquire decimal demo bare_world) ++ [Print no_command_text],
     Raise (SystemExit 1)) ∧
  exit_status (outcome (main decimal demo bare_world)) = 1 ∧
  last (trace (main decimal demo bare_world)) = Some (Print no_command_text) ∧
  copies (trace (main decimal demo bare_world)) = [].
Proof.
  apply (missing_command_is_fatal decimal demo bare_world (bare_record "s1" "ocid.A")).
  - vm_compute. reflexivity.
  - reflexivity.
Defined.

Lemma unreadable_key_never_creates_witness :
  creates (trace (main decimal demo no_key_world)) = [] ∧
  outcome (main decimal demo no_key_world) = Raise (SystemExit 1).
Proof.
  destruct (unreadable_key_never_creates decimal demo no_key_world)
    as (Hnever & Hmissing & _).
  split.
  - apply Hnever. intros content. discriminate.
  - apply Hmissing.
    + reflexivity.
    + apply (list_elem_of_lookup_2 _ 8). vm_compute. reflexivity.
Defined.

Lemma poll_timeout_is_fatal_witness :
  outcome (main decimal demo timeout_world) = Raise MaximumWaitTimeExceeded ∧
  exit_status (outcome (main decimal demo timeout_world)) = 1 ∧
  copies (trace (main decimal demo timeout_world)) = [].
Proof.
  destruct (poll_timeout_is_fatal decimal demo timeout_world
              (bare_record "s9" "ocid.A") "lifecycle_state" "ACTIVE" 10 120)
    as (Hout & Hstatus & Hcopies & _).
  - apply (list_elem_of_lookup_2 _ 13). vm_compute. reflexivity.
  - reflexivity.
  - done.
Defined.

Lemma create_request_user_and_ttl_fixed_witness :
  csd_target_resource_operating_system_user_name
    (request demo "ocid.A" "ssh-rsa AAAAB3Nza op@laptop") = "opc" ∧
  csd_session_ttl_in_seconds
    (request (shipped expanduser_op) "ocid1.instance.oc1...."
       "ssh-rsa AAAAB3Nza op@laptop") = 1800.
Proof.
  destruct (create_request_user_and_ttl_fixed decimal) as (Hany & Hshipped).
  split.
  - apply (Hany demo create_world).
    apply (list_elem_of_lookup_2 _ 10). vm_compute. reflexivity.
  - apply (Hshipped expanduser_op create_world).
    apply (list_elem_of_lookup_2 _ 10). vm_compute. reflexivity.
Defined.

Lemma selection_returns_registry_value_witness :
  ∃ name value,
    dict_keys (TARGET_SERVERS demo) !! Z.to_nat (1 - 1) = Some name ∧
    dict_get (TARGET_SERVERS demo) name = Some value ∧
    outcome (select_target_server decimal demo reuse_world) = Return value ∧
    (NoDup (dict_keys (TARGET_SERVERS demo)) →
     TARGET_SERVERS demo !! Z.to_nat (1 - 1) = Some (name, value)).
Proof.
  destruct (selection_returns_registry_value decimal demo) as (Hvalid & _).
  apply (Hvalid reuse_world [Typed "x"; Typed "9"] "1" []).
  - reflexivity.
  - repeat constructor.
  - reflexivity.
  - vm_compute. split; discriminate.
Defined.

Lemma cancellation_exits_zero_witness :
  outcome (main decimal demo cancel_world) = Raise (SystemExit 0) ∧
  exit_status (outcome (main decimal demo cancel_world)) = 0 ∧
  last (trace (main decimal demo cancel_world)) = Some (Print cancel_text) ∧
  Forall console (trace (main decimal demo cancel_world)).
Proof.
  apply (cancellation_exits_zero decimal demo cancel_world [Typed "abc"]).
  - repeat constructor.
  - right. by exists [].
Defined.

(** ** Where the specification and the script part ways *)

(** C3 as stated fails: with nothing listed and the public key file missing,
    the lookup returns "not found" and yet no create request is made. *)
Lemma no_creation_when_key_missing :
  ¬ (∀ w target,
       outcome (select_target_server decimal demo w) = Return target →
       config_file w = ConfigLoaded →
       list_sessions_failure (bastion w) = None →
       (∀ s, s ∈ sessions (bastion w) (BASTION_OCID demo) → ¬ reusable target s) →
       outcome (find_active_session (bastion w) (BASTION_OCID demo) target)
       = Return None ∧
       length (creates (trace (main decimal demo w))) = 1%nat).
Proof.
  intros Hclaim.
  destruct (Hclaim no_key_world "ocid.A") as [_ Hcount].
  - vm_compute. reflexivity.
  - reflexivity.
  - reflexivity.
  - apply first_reusable_None. reflexivity.
  - vm_compute in Hcount. discriminate.
Qed.

(** C6 as stated fails: with a public key file that exists but may not be
    read, the process ends with status 1 and makes no create request, but the
    guidance is not printed. *)
Lemma no_guidance_when_key_unreadable :
  ¬ (∀ w,
       (file w (PUBLIC_KEY_PATH demo) = FileMissing ∨
        ∃ class_name, file w (PUBLIC_KEY_PATH demo) = FileUnreadable class_name) →
       exit_status (outcome (main decimal demo w)) ≠ 0 ∧
       key_guidance_text ∈ prints (trace (main decimal demo w)) ∧
       creates (trace (main decimal demo w)) = []).
Proof.
  intros Hclaim.
  destruct (Hclaim locked_key_world) as (_ & Hguidance & _).
  - right. by exists "PermissionError".
  - vm_compute in Hguidance. pick Hguidance.
Qed.

(** The public key file is read only when a session has to be created: with
    a reusable session listed, a missing key file does no harm. *)
Example reuse_needs_no_key :
  file reuse_world (PUBLIC_KEY_PATH demo) = FileMissing ∧
  outcome (main decimal demo reuse_world) = Return tt.
Proof. split; [reflexivity|]. vm_compute. reflexivity. Qed.

(** ** Error paths, edges and what the script never does *)

Ltac by_paths :=
  unfold paths, reach, table, conclude, failed, delivery;
  repeat case_match; subst; cbn [trace outcome fst snd app].

Lemma opens_app t1 t2 : opens (t1 ++ t2) = opens t1 ++ opens t2.
Proof. apply omap_app. Qed.

Lemma calls_app t1 t2 : calls (t1 ++ t2) = calls t1 ++ calls t2.
Proof. apply List.filter_app. Qed.

Lemma console_no_call t : Forall console t → opens t = [] ∧ calls t = [].
Proof.
  induction 1 as [|ev t Hev _ IH]; [done|].
  destruct ev; try done; apply IH.
Qed.

Lemma opens_after ts t : Forall console ts → opens (ts ++ t) = opens t.
Proof. intros H. rewrite opens_app. by destruct (console_no_call _ H) as [-> _]. Qed.

Lemma calls_after ts t : Forall console ts → calls (ts ++ t) = calls t.
Proof. intros H. rewrite calls_app. by destruct (console_no_call _ H) as [_ ->]. Qed.

(** *** The lookup *)

(** A [ServiceError] from the listing or from the fetch of the session found
    ends the lookup with the message and [sys.exit(1)]; any other failure of
    these calls leaves the lookup as the exception it is. *)
Theorem lookup_service_error_is_fatal :
  ∀ c bastion_ocid target,
    (∀ f, list_sessions_failure c = Some f →
       find_active_session c bastion_ocid target
       = ([Print (checking_text target); ListSessions bastion_ocid "ACTIVE"], Return tt)
         ≫= (fun _ => aborted lookup_error_text f)) ∧
    (∀ s f, list_sessions_failure c = None →
       first_reusable target (sessions c bastion_ocid) = Some s →
       get_session_response c (sum_id s) = Failed f →
       find_active_session c bastion_ocid target
       = ([ Print (checking_text target); ListSessions bastion_ocid "ACTIVE";
            Print (found_text (sum_id s)); GetSession (sum_id s) ], Return tt)
         ≫= (fun _ => aborted lookup_error_text f)).
Proof.
  intros c bastion_ocid target. split.
  - intros f Hlist. rewrite find_active_session_run, Hlist. by destruct f.
  - intros s f Hlist Hs Hget.
    rewrite find_active_session_run, Hlist, Hs. cbn zeta. rewrite Hget.
    by destruct f.
Qed.

(** Whatever the service answers, the lookup asks for the listing of the
    bastion in state ACTIVE exactly once, fetches at most the first listed
    session that is active and bound to the target, and calls nothing else:
    it never creates and never polls. *)
Theorem lookup_calls :
  ∀ c bastion_ocid target,
    calls (trace (find_active_session c bastion_ocid target))
    = ListSessions bastion_ocid "ACTIVE" ::
      match list_sessions_failure c, first_reusable target (sessions c bastion_ocid) with
      | None, Some s => [GetSession (sum_id s)]
      | _, _ => []
      end.
Proof.
  intros c bastion_ocid target. rewrite find_active_session_run.
  unfold failed. repeat case_match; done.
Qed.

(** *** The creation of a session *)

Lemma create_new_session_run c bastion_ocid target public_key user ttl :
  create_new_session c bastion_ocid target public_key user ttl
  = let d := {| csd_bastion_id := bastion_ocid;
                csd_session_type := "MANAGED_SSH";
                csd_target_resource_id := target;
                csd_target_resource_operating_system_user_name := user;
                csd_public_key_content := public_key;
                csd_session_ttl_in_seconds := ttl |} in
    let t1 := [Print creating_text; CreateSession d] in
    match create_session_response c d with
    | Failed f => failed t1 " Error creating session: " f
    | Data b =>
      let t2 := t1 ++ [Print (waiting_text (session_id b)); GetSession (session_id b)] in
      match get_session_response c (session_id b) with
      | Failed f => failed t2 " Error creating session: " f
      | Data g =>
        let t3 := t2 ++ [WaitUntil g "lifecycle_state" "ACTIVE" 10 120] in
        match wait_until_response c g "lifecycle_state" "ACTIVE" 10 120 with
        | Failed f => failed t3 " Error creating session: " f
        | Data a => (t3 ++ [Print (active_text (session_id a))], Return a)
        end
      end
    end.
Proof.
  unfold create_new_session, create_session, respond. cbn zeta. run.
  destruct (create_session_response _ _) as [b|f]; [|run; by destruct f].
  run. unfold get_session, respond. run.
  destruct (get_session_response _ _) as [g|f]; [|run; by destruct f].
  run. unfold wait_until, respond. run.
  destruct (wait_until_response _ _ _ _ _ _) as [a|f]; [|run; by destruct f].
  by run.
Qed.

(** When the three calls succeed, the creation returns the record the poll
    ended on (not the answer of the create call, nor the record fetched
    before the poll), after exactly these six events. *)
Theorem new_session_is_the_polled_record :
  ∀ c bastion_ocid target public_key user ttl b g a,
    let d := {| csd_bastion_id := bastion_ocid;
                csd_session_type := "MANAGED_SSH";
                csd_target_resource_id := target;
                csd_target_resource_operating_system_user_name := user;
                csd_public_key_content := public_key;
                csd_session_ttl_in_seconds := ttl |} in
    create_session_response c d = Data b →
    get_session_response c (session_id b) = Data g →
    wait_until_response c g "lifecycle_state" "ACTIVE" 10 120 = Data a →
    create_new_session c bastion_ocid target public_key user ttl
    = ([ Print creating_text;
         CreateSession d;
         Print (waiting_text (session_id b));
         GetSession (session_id b);
         WaitUntil g "lifecycle_state" "ACTIVE" 10 120;
         Print (active_text (session_id a)) ],
       Return a).
Proof.
  intros c bastion_ocid target public_key user ttl b g a d Hcreate Hget Hwait.
  rewrite create_new_session_run. cbn zeta. fold d.
  by rewrite Hcreate, Hget, Hwait.
Qed.

(** The creation stops at the first call that fails: a refused create
    request is followed by no fetch and no poll, a failed fetch by no poll.
    A [ServiceError] is reported and ends in [sys.exit(1)]; any other failure
    propagates as it is. *)
Theorem new_session_stops_at_first_failure :
  ∀ c bastion_ocid target public_key user ttl,
    let d := {| csd_bastion_id := bastion_ocid;
                csd_session_type := "MANAGED_SSH";
                csd_target_resource_id := target;
                csd_target_resource_operating_system_user_name := user;
                csd_public_key_content := public_key;
                csd_session_ttl_in_seconds := ttl |} in
    let r := create_new_session c bastion_ocid target public_key user ttl in
    (∀ f, create_session_response c d = Failed f →
       r = ([Print creating_text; CreateSession d], Return tt)
           ≫= (fun _ => aborted create_error_text f)) ∧
    (∀ b f, create_session_response c d = Data b →
       get_session_response c (session_id b) = Failed f →
       r = ([ Print creating_text; CreateSession d;
              Print (waiting_text (session_id b)); GetSession (session_id b) ],
            Return tt)
           ≫= (fun _ => aborted create_error_text f)) ∧
    (∀ b g f, create_session_response c d = Data b →
       get_session_response c (session_id b) = Data g →
       wait_until_response c g "lifecycle_state" "ACTIVE" 10 120 = Failed f →
       r = ([ Print creating_text; CreateSession d;
              Print (waiting_text (session_id b)); GetSession (session_id b);
              WaitUntil g "lifecycle_state" "ACTIVE" 10 120 ],
            Return tt)
           ≫= (fun _ => aborted create_error_text f)).
Proof.
  intros c bastion_ocid target public_key user ttl d r. subst r.
  rewrite create_new_session_run. cbn zeta. fold d. split; [|split].
  - intros f ->. by destruct f.
  - intros b f -> ->. by destruct f.
  - intros b g f -> -> ->. by destruct f.
Qed.

(** *** The public key file *)









(** *** The whole run *)

Section Run.
Variable int_of_str : string → option Z.
Variable cfg : Config.

Local Abbreviation select w := (select_target_server int_of_str cfg w).
Local Abbreviation run_main w := (main int_of_str cfg w).

(** Without the provider's profile the script makes no call to the service:
    after the selection it prints the two lines of the setup hint and exits
    with status 1.  Any other failure to load the profile or to build the
    client is not caught. *)
Theorem config_missing_is_fatal :
  ∀ w target,
    outcome (select w) = Return target →
    (config_file w = ConfigMissing →
       run_main w
       = (trace (select w)
          ++ [ConfigFromFile; Print config_missing_text; Print config_hint_text],
          Raise (SystemExit 1))) ∧
    (∀ class_name, config_file w = ConfigInvalid class_name →
       run_main w = (trace (select w) ++ [ConfigFromFile], Raise (OtherError class_name))).
Proof.
  intros w target Hsel. destruct (main_selected int_of_str cfg w target Hsel) as [_ ->].
  unfold paths, table. split.
  - by intros ->.
  - by intros class_name ->.
Qed.




(** Every poll waits for the field [lifecycle_state] to be ACTIVE, at
    intervals of at most 10 seconds and for at most 120 seconds, and starts
    from the record fetched for the session the create call of this run
    returned. *)
Theorem poll_follows_the_create_call :
  ∀ w g property state max_interval max_wait,
    WaitUntil g property state max_interval max_wait ∈ trace (run_main w) →
    property = "lifecycle_state" ∧ state = "ACTIVE" ∧
    max_interval = 10 ∧ max_wait = 120 ∧
    ∃ d b,
      creates (trace (run_main w)) = [d] ∧
      create_session_response (bastion w) d = Data b ∧
      get_session_response (bastion w) (session_id b) = Data g.
Proof.
  intros w g property state max_interval max_wait Hin.
  destruct (main_split int_of_str cfg w) as [Hcon [[_ Hrun] | (name & target & _ & _ & Hrun)]];
    rewrite Hrun in *; cbn [trace fst] in *.
  { by destruct (console_not_elem _ (WaitUntil g property state max_interval max_wait)
                   Hcon (fun H => H) Hin). }
  apply elem_after in Hin; [|done|by intros []].
  rewrite creates_after by done.
  revert Hin. by_paths; intros Hin; pick Hin;
    injection Hin as -> -> -> -> ->; (do 4 (split; [done|])); eauto.
Qed.

End Run.

Section Delivery.
Variable int_of_str : string → option Z.
Variable cfg : Config.

Local Abbreviation select w := (select_target_server int_of_str cfg w).
Local Abbreviation run_main w := (main int_of_str cfg w).


(** On the creation path the session [main] goes on with is the record the
    poll returned, and one create request was made for it. *)
Theorem creation_path_holds_polled_record :
  ∀ w target content b g a,
    outcome (select w) = Return target →
    config_file w = ConfigLoaded →
    list_sessions_failure (bastion w) = None →
    (∀ s, s ∈ sessions (bastion w) (BASTION_OCID cfg) → ¬ reusable target s) →
    file w (PUBLIC_KEY_PATH cfg) = FileText content →
    create_session_response (bastion w) (request cfg target (Str.strip content)) = Data b →
    get_session_response (bastion w) (session_id b) = Data g →
    wait_until_response (bastion w) g "lifecycle_state" "ACTIVE" 10 120 = Data a →
    outcome (acquire int_of_str cfg w) = Return (Some a) ∧
    calls (trace (acquire int_of_str cfg w))
    = [ ListSessions (BASTION_OCID cfg) "ACTIVE";
        CreateSession (request cfg target (Str.strip content));
        GetSession (session_id b);
        WaitUntil g "lifecycle_state" "ACTIVE" 10 120 ].
Proof.
  intros w target content b g a Hsel Hcfg Hlist Hnone%first_reusable_None
    Hfile Hcreate Hget Hwait.
  destruct (select_target_server_cases int_of_str cfg w) as [Hcon _].
  rewrite acquire_reach, <- (run_eta (select w)), Hsel, bind_return.
  cbn [trace outcome fst snd]. rewrite calls_after by done.
  unfold reach, table. rewrite Hcfg, Hlist, Hnone. cbn zeta.
  by rewrite Hfile, Hcreate, Hget, Hwait.
Qed.

(** A failure of the lookup ends the run there: when the listing fails, the
    listing is the only call made; when the record of the session found
    cannot be fetched, the script does not fall back to creating a session.
    In both cases no key file is opened, nothing is copied and the exit
    status is 1. *)
Theorem lookup_failure_stops_the_run :
  ∀ w target,
    outcome (select w) = Return target →
    config_file w = ConfigLoaded →
    (∀ f, list_sessions_failure (bastion w) = Some f →
       calls (trace (run_main w)) = [ListSessions (BASTION_OCID cfg) "ACTIVE"] ∧
       opens (trace (run_main w)) = [] ∧
       copies (trace (run_main w)) = [] ∧
       exit_status (outcome (run_main w)) = 1) ∧
    (∀ s f, list_sessions_failure (bastion w) = None →
       first_reusable target (sessions (bastion w) (BASTION_OCID cfg)) = Some s →
       get_session_response (bastion w) (sum_id s) = Failed f →
       calls (trace (run_main w))
       = [ListSessions (BASTION_OCID cfg) "ACTIVE"; GetSession (sum_id s)] ∧
       opens (trace (run_main w)) = [] ∧
       copies (trace (run_main w)) = [] ∧
       exit_status (outcome (run_main w)) = 1).
Proof.
  intros w target Hsel Hcfg.
  destruct (main_selected int_of_str cfg w target Hsel) as [Hcon ->].
  cbn [trace outcome fst snd].
  rewrite calls_after, opens_after, copies_after by done.
  unfold paths, table. rewrite Hcfg. cbn zeta. split.
  - intros f ->. by destruct f.
  - intros s f -> -> ->. by destruct f.
Qed.

End Delivery.

(** *** The menu and the prompt *)

Lemma print_menu_lines i (names : list string) :
  print_menu i names = (imap (fun j => menu_line (i + j)) names, Return tt).
Proof.
  revert i. induction names as [|name names IH]; intros i; [done|].
  cbn [print_menu]. rewrite IH. run.
  change (imap (fun j => menu_line (i + j)) (name :: names))
    with (menu_line (i + 0) name
          :: imap ((fun j => menu_line (i + j)) ∘ S) names).
  rewrite Nat.add_0_r. unfold menu_line at 2. do 2 f_equal.
  apply imap_ext. intros j x _. cbn. by rewrite Nat.add_succ_r.
Qed.

Section Menu.
Variable int_of_str : string → option Z.
Variable cfg : Config.

Local Abbreviation server_list := (dict_keys (TARGET_SERVERS cfg)).
Local Abbreviation n_servers := (length (TARGET_SERVERS cfg)).

(** The selection first prints the heading and one numbered line for every
    name of the registry, from 1 and in the order of the registry, before it
    prompts. *)
Theorem menu_lists_registry_in_order :
  ∀ w,
    trace (select_target_server int_of_str cfg w)
    = Print "Please select a server to connect to:"
      :: imap menu_line server_list
      ++ trace (select_loop int_of_str cfg server_list (keyboard w)).
Proof.
  intros w. rewrite select_target_server_eq. cbn [trace fst].
  by rewrite print_menu_lines.
Qed.

(** With an empty registry no line can be a valid selection: whatever is
    typed, the run ends at the prompt with exit status 0, having touched
    nothing but the terminal. *)
Theorem empty_registry_never_selects :
  TARGET_SERVERS cfg = [] →
  ∀ w,
    outcome (main int_of_str cfg w) = Raise (SystemExit 0) ∧
    Forall console (trace (main int_of_str cfg w)).
Proof.
  intros Hempty w.
  destruct (select_target_server_cases int_of_str cfg w)
    as [Hcon [Hexit | (name & value & Hin & _)]].
  - rewrite (main_cancelled int_of_str cfg w Hexit). by split.
  - rewrite Hempty in Hin. by apply elem_of_nil in Hin.
Qed.

(** The prompt reads no further than the first valid line: the terminal
    shows the rejected lines' exchanges and the confirmation of the selected
    name, and what is typed after that line plays no part. *)
Theorem selection_stops_at_first_valid_line :
  ∀ before line rest i name,
    Forall (rejected int_of_str n_servers) before →
    valid_line int_of_str n_servers line = Some i →
    server_list !! i = Some name →
    trace (select_loop int_of_str cfg server_list (before ++ Typed line :: rest))
    = rejections int_of_str cfg before
      ++ [Input (prompt_text n_servers); Print (selected_text name)] ∧
    select_loop int_of_str cfg server_list (before ++ Typed line :: rest)
    = select_loop int_of_str cfg server_list (before ++ [Typed line]).
Proof.
  intros before line rest i name Hbefore Hvalid Hname.
  assert (∀ tail,
            select_loop int_of_str cfg server_list (before ++ Typed line :: tail)
            = (rejections int_of_str cfg before
               ++ [Input (prompt_text n_servers); Print (selected_text name)],
               match dict_get (TARGET_SERVERS cfg) name with
               | Some value => Return value
               | None => Raise (KeyError name)
               end)) as Hrun.
  { intros tail. rewrite select_loop_skips by done. cbn [select_loop].
    rewrite <- (n_servers_keys cfg) in Hvalid.
    rewrite (select_once_valid _ _ _ _ _ name Hvalid Hname).
    rewrite (n_servers_keys cfg).
    destruct (dict_get (TARGET_SERVERS cfg) name); by run. }
  split; [by rewrite Hrun|]. by rewrite !Hrun.
Qed.

End Menu.

(** *** The same on the demo worlds *)

Lemma lookup_service_error_is_fatal_witness :
  find_active_session (bastion list_error_world) "ocid.bastion" "ocid.A"
  = ([ Print (checking_text "ocid.A"); ListSessions "ocid.bastion" "ACTIVE";
       Print (lookup_error_text "Unauthorized") ],
     Raise (SystemExit 1)) ∧
  find_active_session (bastion fetch_error_world) "ocid.bastion" "ocid.A"
  = ([ Print (checking_text "ocid.A"); ListSessions "ocid.bastion" "ACTIVE";
       Print (found_text "s1"); GetSession "s1";
       Print (lookup_error_text "NotAuthorizedOrNotFound") ],
     Raise (SystemExit 1)).
Proof.
  split.
  - destruct (lookup_service_error_is_fatal (bastion list_error_world)
                "ocid.bastion" "ocid.A") as [Hlist _].
    rewrite (Hlist (ServiceFailure "Unauthorized")); reflexivity.
  - destruct (lookup_service_error_is_fatal (bastion fetch_error_world)
                "ocid.bastion" "ocid.A") as [_ Hfetch].
    rewrite (Hfetch (listed "s1" "ACTIVE" "ocid.A")
               (ServiceFailure "NotAuthorizedOrNotFound")); reflexivity.
Defined.

Lemma new_session_is_the_polled_record_witness :
  outcome (create_new_session (bastion create_world) "ocid.bastion" "ocid.A"
             "ssh-rsa AAAAB3Nza op@laptop" "opc" 1800)
  = Return (record "s9" "ocid.A").
Proof.
  rewrite (new_session_is_the_polled_record (bastion create_world) "ocid.bastion"
             "ocid.A" "ssh-rsa AAAAB3Nza op@laptop" "opc" 1800
             (bare_record "s9" "ocid.A") (bare_record "s9" "ocid.A")
             (record "s9" "ocid.A")); reflexivity.
Defined.

Lemma new_session_stops_at_first_failure_witness :
  create_new_session (bastion create_error_world) "ocid.bastion" "ocid.A"
    "ssh-rsa AAAAB3Nza op@laptop" "opc" 1800
  = ([ Print creating_text;
       CreateSession (request demo "ocid.A" "ssh-rsa AAAAB3Nza op@laptop");
       Print (create_error_text "LimitExceeded") ],
     Raise (SystemExit 1)).
Proof.
  destruct (new_session_stops_at_first_failure (bastion create_error_world)
              "ocid.bastion" "ocid.A" "ssh-rsa AAAAB3Nza op@laptop" "opc" 1800)
    as [Hcreate _].
  rewrite (Hcreate (ServiceFailure "LimitExceeded")); reflexivity.
Defined.


Lemma config_missing_is_fatal_witness :
  main decimal demo no_config_world
  = (trace (select_target_server decimal demo no_config_world)
     ++ [ConfigFromFile; Print config_missing_text; Print config_hint_text],
     Raise (SystemExit 1)).
Proof.
  destruct (config_missing_is_fatal decimal demo no_config_world "ocid.B")
    as [Hmissing _].
  - vm_compute. reflexivity.
  - apply Hmissing. reflexivity.
Defined.




Lemma poll_follows_the_create_call_witness :
  ∃ d b,
    creates (trace (main decimal demo timeout_world)) = [d] ∧
    create_session_response (bastion timeout_world) d = Data b ∧
    get_session_response (bastion timeout_world) (session_id b)
    = Data (bare_record "s9" "ocid.A").
Proof.
  destruct (poll_follows_the_create_call decimal demo timeout_world
              (bare_record "s9" "ocid.A") "lifecycle_state" "ACTIVE" 10 120)
    as (_ & _ & _ & _ & Hcreated).
  - apply (list_elem_of_lookup_2 _ 13). vm_compute. reflexivity.
  - exact Hcreated.
Defined.


Lemma creation_path_holds_polled_record_witness :
  outcome (acquire decimal demo create_world) = Return (Some (record "s9" "ocid.A")).
Proof.
  destruct (creation_path_holds_polled_record decimal demo create_world "ocid.A"
              "ssh-rsa AAAAB3Nza op@laptop
" (bare_record "s9" "ocid.A") (bare_record "s9" "ocid.A") (record "s9" "ocid.A"))
    as [Hheld _].
  - vm_compute. reflexivity.
  - reflexivity.
  - reflexivity.
  - apply first_reusable_None. vm_compute. reflexivity.
  - reflexivity.
  - reflexivity.
  - reflexivity.
  - reflexivity.
  - exact Hheld.
Defined.

Lemma lookup_failure_stops_the_run_witness :
  calls (trace (main decimal demo list_error_world))
  = [ListSessions "ocid.bastion" "ACTIVE"] ∧
  calls (trace (main decimal demo fetch_error_world))
  = [ListSessions "ocid.bastion" "ACTIVE"; GetSession "s1"].
Proof.
  split.
  - destruct (lookup_failure_stops_the_run decimal demo list_error_world "ocid.A")
      as [Hlist _].
    + vm_compute. reflexivity.
    + reflexivity.
    + destruct (Hlist (ServiceFailure "Unauthorized")) as [Hcalls _];
        [reflexivity|exact Hcalls].
  - destruct (lookup_failure_stops_the_run decimal demo fetch_error_world "ocid.A")
      as [_ Hfetch].
    + vm_compute. reflexivity.
    + reflexivity.
    + destruct (Hfetch (listed "s1" "ACTIVE" "ocid.A")
                  (ServiceFailure "NotAuthorizedOrNotFound")) as [Hcalls _];
        [reflexivity..|exact Hcalls].
Defined.

Lemma empty_registry_never_selects_witness :
  outcome (main decimal empty_registry reuse_world) = Raise (SystemExit 0).
Proof.
  destruct (empty_registry_never_selects decimal empty_registry eq_refl reuse_world)
    as [Hexit _].
  exact Hexit.
Defined.

Lemma selection_stops_at_first_valid_line_witness :
  select_loop decimal demo (dict_keys (TARGET_SERVERS demo))
    ([Typed "x"] ++ Typed "2" :: [Typed "1"; Interrupt])
  = select_loop decimal demo (dict_keys (TARGET_SERVERS demo))
      ([Typed "x"] ++ [Typed "2"]).
Proof.
  destruct (selection_stops_at_first_valid_line decimal demo
              [Typed "x"] "2" [Typed "1"; Interrupt] 1%nat "server2")
    as [_ Hsame].
  - repeat constructor.
  - reflexivity.
  - reflexivity.
  - exact Hsame.
Defined.
